(** * The API executor of the chat application

    A shallow embedding of the program that
    [enhanced_api_executor_fixes.py] holds in its string constants
    [enhanced_request_handling] and [enhanced_node_api_exec]: the request
    executor [execute_custom_api], the dictionary based executor
    [execute_api_request] and the direct-execution branch of the chat node
    [node_api_exec], with the properties the specification states about
    them. Line numbers are those of that file.

    Python dictionaries keyed by strings ([headers], [query_params]) are
    finite maps; Python values of type [Any] are the inductive [pyval];
    the HTTP library, the JSON decoder, the URL parser, the regular
    expression engine and the clock are parameters of the development
    (class [PyRuntime] and the [transport] of the sections below), so that
    every theorem holds whatever these libraries answer. *)

From Stdlib Require Import ZArith Ascii String.
From stdpp Require Import base option list strings gmap.

Set Warnings "-register-all".
Local Open Scope Z_scope.

(** ** Python strings *)

(** Text is a sequence of bytes (UTF-8). Code points below 128 are the
    bytes with the top bit clear. *)
Definition char_isascii (c : ascii) : bool :=
  match c with Ascii _ _ _ _ _ _ _ b7 => negb b7 end.

Fixpoint str_isascii (s : string) : bool :=
  match s with
  | EmptyString => true
  | String c s' => char_isascii c && str_isascii s'
  end.

Definition char_upper (c : ascii) : ascii :=
  let n := N_of_ascii c in
  if ((97 <=? n) && (n <=? 122))%N then ascii_of_N (n - 32) else c.

Definition char_lower (c : ascii) : ascii :=
  let n := N_of_ascii c in
  if ((65 <=? n) && (n <=? 90))%N then ascii_of_N (n + 32) else c.

Fixpoint str_map (f : ascii -> ascii) (s : string) : string :=
  match s with
  | EmptyString => EmptyString
  | String c s' => String (f c) (str_map f s')
  end.

(** [s.startswith(prefix)] *)
Fixpoint str_startswith (prefix s : string) : bool :=
  match prefix, s with
  | EmptyString, _ => true
  | String a prefix', String b s' => Ascii.eqb a b && str_startswith prefix' s'
  | String _ _, EmptyString => false
  end.

(** [sub in s] on [str]: [sub] occurs in [s] as a contiguous substring. *)
Fixpoint str_in (sub s : string) : bool :=
  str_startswith sub s ||
  match s with
  | EmptyString => false
  | String _ s' => str_in sub s'
  end.

(** ** Python values *)

Inductive pyfloat : Type :=
| Finite (m e : Z)            (* the number m * 2^e *)
| Inf (negative : bool)
| NaN.

Inductive pyval : Type :=
| PNone
| PBool (b : bool)
| PInt (n : Z)
| PFloat (x : pyfloat)
| PStr (s : string)
| PList (l : list pyval)
| PDict (d : list (string * pyval)).

(** Truth value testing, as [if v:] and [not v] do it. *)
Definition float_truthy (x : pyfloat) : bool :=
  match x with
  | Finite m _ => negb (m =? 0)
  | _ => true
  end.

Definition truthy (v : pyval) : bool :=
  match v with
  | PNone => false
  | PBool b => b
  | PInt n => negb (n =? 0)
  | PFloat x => float_truthy x
  | PStr s => negb (String.eqb s EmptyString)
  | PList l => match l with [] => false | _ => true end
  | PDict d => match d with [] => false | _ => true end
  end.

(** [x or default] on an optional string: [None] and the empty string are
    both falsy. *)
Definition str_or (x : option string) (default : string) : string :=
  match x with
  | Some s => if String.eqb s EmptyString then default else s
  | None => default
  end.

(** [x or {}] on an optional dictionary. *)
Definition dict_or_empty (x : option (gmap string string)) : gmap string string :=
  default ∅ x.

Definition dict_truthy (d : gmap string string) : bool :=
  negb (bool_decide (d = ∅)).

(** A dictionary of strings seen as a Python value (what [json=params]
    hands to the HTTP library). *)
Definition dict_value (d : gmap string string) : pyval :=
  PDict (prod_map id PStr <$> map_to_list d).

(** ** Exceptions *)

(** The exception classes the executors distinguish. [ConnectTimeout]
    derives from both [ConnectionError] and [Timeout]; every class of the
    HTTP library derives from [RequestException]. *)
Inductive exc_class : Type :=
| Timeout
| ConnectTimeout
| ReadTimeout
| ConnectionError
| SSLError
| RequestException       (* the base class and its other subclasses *)
| UnboundLocalError
| ValueError
| OtherException.

Definition isinstance_Timeout (c : exc_class) : bool :=
  match c with
  | Timeout | ConnectTimeout | ReadTimeout => true
  | _ => false
  end.

Definition isinstance_ConnectionError (c : exc_class) : bool :=
  match c with
  | ConnectionError | ConnectTimeout | SSLError => true
  | _ => false
  end.

Definition isinstance_RequestException (c : exc_class) : bool :=
  match c with
  | UnboundLocalError | ValueError | OtherException => false
  | _ => true
  end.

(** An exception object: its class and [str(e)]. *)
Record pyexc : Type := PyExc {
  exc_class_of : exc_class;
  exc_str : string
}.

(** FastAPI's [HTTPException(status_code=..., detail=...)]. *)
Record HTTPException : Type := mkHTTPException {
  status_code : Z;
  detail : string
}.

(** What [execute_custom_api] raises: an [HTTPException] of its own, or
    an exception raised outside its [try] block, which nothing catches. *)
Inductive raised : Type :=
| Http (h : HTTPException)
| Uncaught (e : pyexc).

Coercion Http : HTTPException >-> raised.

(** ** The libraries the code calls *)

Class PyRuntime : Type := {
  (** [str.upper] and [str.lower] on text with code points above 127 *)
  unicode_upper : string -> string;
  unicode_lower : string -> string;
  (** [json.loads]; [None] when it raises *)
  json_loads : string -> option pyval;
  (** [str(v)] for a value that is not a string *)
  repr : pyval -> string;
  (** [urllib.parse.urlparse(url)]: the [scheme] of the parsed URL, or
      the [ValueError] that [urlparse] raises on a URL it does not parse *)
  urlparse_scheme : string -> pyexc + string;
  (** [re.findall(pattern, text)] for a pattern without groups *)
  re_findall : string -> string -> list string;
  (** what [time.time()] returns during the call *)
  time_time : pyfloat
}.

Section Builtins.
Context {rt : PyRuntime}.

(** On ASCII text the case mappings are those of the 26 letters; other
    text is left to the runtime. *)
Definition str_upper (s : string) : string :=
  if str_isascii s then str_map char_upper s else unicode_upper s.

Definition str_lower (s : string) : string :=
  if str_isascii s then str_map char_lower s else unicode_lower s.

Definition py_str (v : pyval) : string :=
  match v with
  | PStr s => s
  | _ => repr v
  end.

(** A URL that passes lines 29-31: [urlparse] returns and the scheme is
    [http] or [https]. *)
Definition url_accepted (url : string) : bool :=
  match urlparse_scheme url with
  | inr scheme => bool_decide (scheme ∈ ["http"; "https"])
  | inl _ => false
  end.

End Builtins.

(** ** The HTTP library *)

(** One call of [requests.request] with its keyword arguments. *)
Record Call : Type := mkCall {
  call_method : string;
  call_url : string;
  call_params : option (gmap string string);
  call_json : pyval;                 (* [PNone]: no [json=] *)
  call_data : option string;
  call_headers : gmap string string;
  call_timeout : Z;
  call_allow_redirects : bool
}.

(** The response object [r]. *)
Record Response : Type := mkResponse {
  resp_status_code : Z;
  resp_url : string;
  resp_headers : gmap string string;
  resp_text : string;
  resp_json : option pyval           (* [r.json()]; [None] when it raises *)
}.

(** [Response.ok]: [raise_for_status()] raises exactly for the client
    errors [400 <= status < 500] and the server errors
    [500 <= status < 600], and [ok] is true when it does not raise. *)
Definition resp_ok (r : Response) : bool :=
  let s := resp_status_code r in
  negb (((400 <=? s) && (s <? 500)) || ((500 <=? s) && (s <? 600))).

(** ** Computations that call the network and may raise *)

Inductive outcome (E A : Type) : Type :=
| Returns (a : A)
| Raises (e : E).
Arguments Returns {E A} a.
Arguments Raises {E A} & e.

(** The state is the log of the calls made so far, oldest first. *)
Definition Py (E A : Type) : Type := list Call -> outcome E A * list Call.

#[export] Instance Py_ret {E} : MRet (Py E) :=
  fun A a log => (Returns a, log).

#[export] Instance Py_bind {E} : MBind (Py E) :=
  fun A B k m log =>
    match m log with
    | (Returns a, log') => k a log'
    | (Raises e, log') => (Raises e, log')
    end.

Definition raise {E A} (e : E) : Py E A :=
  fun log => (Raises e, log).

(** [try: body / except E as e: handler e] *)
Definition try_except {E E' A} (body : Py E A) (handler : E -> Py E' A) : Py E' A :=
  fun log =>
    match body log with
    | (Returns a, log') => (Returns a, log')
    | (Raises e, log') => handler e log'
    end.

(** A program started with an empty log. *)
Definition run {E A} (m : Py E A) : outcome E A * list Call := m [].
Definition result_of {E A} (m : Py E A) : outcome E A := fst (run m).
Definition calls_of {E A} (m : Py E A) : list Call := snd (run m).

(** Reading a local variable that may not have been assigned. *)
Definition read_local {A} (name : string) (v : option A) : Py pyexc A :=
  match v with
  | Some a => mret a
  | None =>
      raise (PyExc UnboundLocalError
               ("cannot access local variable '" +:+ name +:+
                "' where it is not associated with a value"))
  end.

Section Requests.
(** The network: what the HTTP library answers to a call, a response or
    an exception. *)
Variable transport : Call -> pyexc + Response.

Definition requests_request (method url : string)
    (json : pyval) (data : option string)
    (params : option (gmap string string))
    (headers : gmap string string) (timeout : Z)
    (allow_redirects : bool) : Py pyexc Response :=
  fun log =>
    let c := mkCall method url params json data headers timeout allow_redirects in
    (match transport c with
     | inl e => Raises e
     | inr r => Returns r
     end, log ++ [c]).

(** [requests.get(url, ...)] is [requests.request("get", url, ...)], sent
    as [GET]; redirects are followed unless asked otherwise. *)
Definition requests_get (url : string)
    (params : option (gmap string string))
    (headers : gmap string string) (timeout : Z) : Py pyexc Response :=
  requests_request "GET" url PNone None params headers timeout true.

End Requests.

(** ** [execute_custom_api] *)

(** Modelled from the spec: the class [CustomApiExecuteRequest] is declared
    outside these sources. Its fields are the attributes that
    [execute_custom_api] reads, with the types the data model gives a
    request description: optional string to string mappings for the query
    parameters and the headers, and a JSON-compatible value or a string
    for the body ([PNone] when no body is given). *)
Record CustomApiExecuteRequest : Type := mkRequest {
  base_url : string;
  method : option string;
  query_params : option (gmap string string);
  param_key : option string;
  param_value : option string;
  headers : option (gmap string string);
  body : pyval
}.

(** The dictionary [response_data] that is returned, a field per key;
    [None] for a key that is not set. *)
Record ResponseData : Type := mkResponseData {
  rd_success : bool;
  rd_status : Z;
  rd_url : string;
  rd_method : string;
  rd_headers : gmap string string;
  rd_data : option pyval;
  rd_text : option string;
  rd_content_type : string;
  rd_request_headers : gmap string string;
  rd_request_body : option pyval;
  rd_request_params : option (gmap string string)
}.

Definition str_truthy (s : string) : bool := negb (String.eqb s EmptyString).

(** Lines 47-49 and 261-263: the default [User-Agent]. *)
Definition with_user_agent (headers : gmap string string) : gmap string string :=
  if bool_decide (headers !! "User-Agent" = None)
  then <["User-Agent" := "Multi-Agent-Chatbot/1.0"]> headers
  else headers.

(** [params or None] *)
Definition params_or_None (params : gmap string string) : option (gmap string string) :=
  if dict_truthy params then Some params else None.

(** Lines 33-36: the query parameters, with the single parameter
    [param_key]/[param_value] added when it is not there yet. *)
Definition merge_params (req : CustomApiExecuteRequest) : gmap string string :=
  let params := dict_or_empty (query_params req) in
  match param_key req, param_value req with
  | Some k, Some v =>
      if str_truthy k && str_truthy v && bool_decide (params !! k = None)
      then <[k := v]> params
      else params
  | _, _ => params
  end.

(** Lines 121-128: the [except] clauses, tried in order. *)
Definition http_exception_of (e : pyexc) : HTTPException :=
  if isinstance_Timeout (exc_class_of e) then
    mkHTTPException 408 "API request timed out"
  else if isinstance_ConnectionError (exc_class_of e) then
    mkHTTPException 502 "Failed to connect to API endpoint"
  else if isinstance_RequestException (exc_class_of e) then
    mkHTTPException 502 ("API request failed: " +:+ exc_str e)
  else
    mkHTTPException 500 ("Internal error: " +:+ exc_str e).

Section CustomApi.
Context {rt : PyRuntime}.
Variable transport : Call -> pyexc + Response.

(** Lines 42-49: the request headers. *)
Definition request_headers (method : string) (req : CustomApiExecuteRequest)
    : gmap string string :=
  let headers := dict_or_empty (headers req) in
  let headers :=
    if bool_decide (method ∈ ["POST"; "PUT"; "PATCH"]) && truthy (body req) then
      if bool_decide (headers !! "Content-Type" = None)
      then <["Content-Type" := "application/json"]> headers
      else headers
    else headers in
  with_user_agent headers.

(** Lines 62-76: [(json_body, data_param)]. *)
Definition body_arguments (params : gmap string string) (body : pyval)
    : pyval * option string :=
  match body with
  | PNone => (if dict_truthy params then dict_value params else PNone, None)
  | PDict _ | PList _ => (body, None)
  | _ =>
      match json_loads (py_str body) with
      | Some parsed => (parsed, None)
      | None => (PNone, Some (py_str body))
      end
  end.

(** Lines 52-91: the HTTP call. The second component is the local
    variable [json_body], [None] on the branches that do not assign it. *)
Definition send_request (method : string) (req : CustomApiExecuteRequest)
    (params headers : gmap string string) : Py pyexc (Response * option pyval) :=
  if String.eqb method "GET" then
    r ← requests_get transport (base_url req) (params_or_None params) headers 30;
    mret (r, None)
  else if bool_decide (method ∈ ["POST"; "PUT"; "PATCH"; "DELETE"]) then
    let '(json_body, data_param) := body_arguments params (body req) in
    r ← requests_request transport method (base_url req) json_body data_param
          (if String.eqb method "DELETE" && negb (truthy json_body)
           then Some params else None)
          headers 30 true;
    mret (r, Some json_body)
  else
    r ← requests_get transport (base_url req) (params_or_None params) headers 30;
    mret (r, None).

(** What [send_request] leaves behind, read off its three branches: the
    call it hands to the HTTP library and the state of the local variable
    [json_body]. The lemma [send_request_run] below relates them to the
    program. *)
Definition outgoing_call (method : string) (req : CustomApiExecuteRequest)
    (params headers : gmap string string) : Call :=
  if String.eqb method "GET" then
    mkCall "GET" (base_url req) (params_or_None params) PNone None headers 30 true
  else if bool_decide (method ∈ ["POST"; "PUT"; "PATCH"; "DELETE"]) then
    let jb := body_arguments params (body req) in
    mkCall method (base_url req)
      (if String.eqb method "DELETE" && negb (truthy jb.1) then Some params else None)
      jb.1 jb.2 headers 30 true
  else
    mkCall "GET" (base_url req) (params_or_None params) PNone None headers 30 true.

Definition json_body_after (method : string) (req : CustomApiExecuteRequest)
    (params : gmap string string) : option pyval :=
  if String.eqb method "GET" then None
  else if bool_decide (method ∈ ["POST"; "PUT"; "PATCH"; "DELETE"]) then
    Some (body_arguments params (body req)).1
  else None.

Definition execute_custom_api (req : CustomApiExecuteRequest)
    : Py raised ResponseData :=
  match urlparse_scheme (base_url req) with
  | inl e => raise (Uncaught e)
  | inr scheme =>
  if negb (bool_decide (scheme ∈ ["http"; "https"])) then
    raise (Http (mkHTTPException 400 "Only http/https URLs are allowed"))
  else
    let params := merge_params req in
    try_except
      (let method := str_upper (str_or (method req) "GET") in
       let headers := request_headers method req in
       '(r, json_body_local) ← send_request method req params headers;
       (* response parsing: JSON first, text otherwise *)
       let data := resp_json r in
       let text := match resp_json r with Some _ => None | None => Some (resp_text r) end in
       let content_type := match resp_json r with Some _ => "json" | None => "text" end in
       (* debug information *)
       json_body ← read_local "json_body" json_body_local;
       mret {| rd_success := resp_ok r;
               rd_status := resp_status_code r;
               rd_url := resp_url r;
               rd_method := method;
               rd_headers := resp_headers r;
               rd_data := data;
               rd_text := text;
               rd_content_type := content_type;
               rd_request_headers := headers;
               rd_request_body := if truthy json_body then Some json_body else None;
               rd_request_params := params_or_None params |})
      (fun e => raise (Http (http_exception_of e)))
  end.

End CustomApi.

(** ** [execute_api_request] *)

(** The dictionary [request_data]: a field per key, [None] for a key that
    is absent ([.get] then takes its default). *)
Record RequestData : Type := mkRequestData {
  rq_base_url : string;
  rq_method : option string;
  rq_query_params : option (gmap string string);
  rq_body : pyval;
  rq_headers : option (gmap string string)
}.

(** The dictionary [execute_api_request] returns. *)
Record ApiResult : Type := mkApiResult {
  res_success : bool;
  res_status : Z;
  res_url : option string;
  res_method : option string;
  res_data : option pyval;
  res_text : option string;
  res_error : option string
}.

Section ApiRequest.
Context {rt : PyRuntime}.
Variable transport : Call -> pyexc + Response.

Definition execute_api_request {E} (request_data : RequestData) : Py E ApiResult :=
  try_except
    (let method := str_upper (default "GET" (rq_method request_data)) in
     let url := rq_base_url request_data in
     let headers := default ∅ (rq_headers request_data) in
     let params := default ∅ (rq_query_params request_data) in
     let body := rq_body request_data in
     let headers := with_user_agent headers in
     response ←
       (if String.eqb method "GET" then
          requests_get transport url (Some params) headers 30
        else if bool_decide (method ∈ ["POST"; "PUT"; "PATCH"; "DELETE"]) then
          requests_request transport method url body None (Some params) headers 30 true
        else
          requests_get transport url (Some params) headers 30);
     mret {| res_success := resp_ok response;
             res_status := resp_status_code response;
             res_url := Some (resp_url response);
             res_method := Some method;
             res_data := resp_json response;
             res_text := match resp_json response with
                         | Some _ => None
                         | None => Some (resp_text response)
                         end;
             res_error := None |})
    (fun e : pyexc =>
       mret {| res_success := false;
               res_status := 0;
               res_url := None;
               res_method := None;
               res_data := None;
               res_text := None;
               res_error := Some (exc_str e) |}).

(** The call [execute_api_request] hands to the HTTP library, read off
    its three branches (lemma [execute_api_request_run]). *)
Definition api_outgoing_call (request_data : RequestData) : Call :=
  let method := str_upper (default "GET" (rq_method request_data)) in
  let headers := with_user_agent (default ∅ (rq_headers request_data)) in
  let params := Some (default ∅ (rq_query_params request_data)) in
  if String.eqb method "GET" then
    mkCall "GET" (rq_base_url request_data) params PNone None headers 30 true
  else if bool_decide (method ∈ ["POST"; "PUT"; "PATCH"; "DELETE"]) then
    mkCall method (rq_base_url request_data) params (rq_body request_data) None
      headers 30 true
  else
    mkCall "GET" (rq_base_url request_data) params PNone None headers 30 true.

(** ** [node_api_exec]: intent detection and direct execution *)

(** A chat message: [content], [type] and [role], each [None] when the
    object has no such attribute. *)
Record Message : Type := mkMessage {
  msg_content : option string;
  msg_type : option string;
  msg_role : option string
}.

(** [getattr(msg, "type", getattr(msg, "role", "unknown"))] *)
Definition message_type (msg : Message) : string :=
  match msg_type msg with
  | Some t => t
  | None => default "unknown" (msg_role msg)
  end.

(** Lines 143-152: the content of the last human message. *)
Fixpoint last_user_msg (messages : list Message) (user_msg : string) : string :=
  match messages with
  | [] => user_msg
  | msg :: rest =>
      match msg_content msg with
      | Some content =>
          if bool_decide (message_type msg ∈ ["human"; "user"])
          then last_user_msg rest content
          else last_user_msg rest user_msg
      | None => last_user_msg rest user_msg
      end
  end.

(** Lines 157-163: the lexicon; a dictionary literal, iterated in the
    order it is written. *)
Definition api_keywords : list (string * list string) :=
  [ ("put", ["put"; "update"; "modify"; "change"; "edit"]);
    ("post", ["post"; "create"; "add"; "submit"; "send"]);
    ("patch", ["patch"; "partial"; "modify"]);
    ("delete", ["delete"; "remove"; "destroy"]);
    ("get", ["get"; "fetch"; "retrieve"; "read"]) ].

(** [any(keyword in user_msg.lower() for keyword in keywords)] *)
Definition any_keyword (keywords : list string) (user_msg : string) : bool :=
  existsb (fun keyword => str_in keyword (str_lower user_msg)) keywords.

(** Lines 165-169: the loop with its [break]. *)
Fixpoint detect_method (items : list (string * list string)) (user_msg : string)
    : option string :=
  match items with
  | [] => None
  | (method, keywords) :: rest =>
      if any_keyword keywords user_msg
      then Some (str_upper method)
      else detect_method rest user_msg
  end.

Definition detected_method (user_msg : string) : option string :=
  detect_method api_keywords user_msg.

Definition dquote : string := String (ascii_of_nat 34) EmptyString.

(** Lines 173 and 194: the two patterns, as the program text has them
    once the escapes of the string constant that holds it are resolved
    (a backslash before the caret and before each brace). *)
Definition url_pattern : string :=
  "https?://[^\s<>" +:+ dquote +:+ "{}|\^`\[\]]+".

Definition json_pattern : string := "\{[^{}]*\}".

(** Lines 203-209: the placeholder body of a method. *)
Definition default_body (detected_method : string) : pyval :=
  if String.eqb detected_method "PUT" then
    PDict [("updated", PBool true); ("timestamp", PFloat time_time)]
  else if String.eqb detected_method "POST" then
    PDict [("created", PBool true); ("timestamp", PFloat time_time)]
  else if String.eqb detected_method "PATCH" then
    PDict [("patched", PBool true); ("timestamp", PFloat time_time)]
  else PNone.

(** Lines 193-200: the JSON object found in the message, [PNone] when
    there is none or when it does not parse. *)
Definition extract_body (user_msg : string) : pyval :=
  match re_findall json_pattern user_msg with
  | first :: _ => default PNone (json_loads first)
  | [] => PNone
  end.

(** Lines 183-209: the dictionary [request_data]. *)
Definition build_request_data (api_url detected_method user_msg : string)
    : RequestData :=
  let body :=
    if bool_decide (detected_method ∈ ["PUT"; "POST"; "PATCH"]) then
      let body := extract_body user_msg in
      if negb (truthy body) then default_body detected_method else body
    else PNone in
  {| rq_base_url := api_url;
     rq_method := Some detected_method;
     rq_query_params := Some ∅;
     rq_body := body;
     rq_headers := Some {["Content-Type" := "application/json"]} |}.

(** What the node answers: the two messages of a direct call, the message
    of the [except] clause, or the hand-over to the conversation flows,
    the intent router and the language model, which are not part of this
    file. *)
Inductive NodeResult : Type :=
| CallSuccessful (detected_method api_url : string) (response : ApiResult)
| CallFailed (detected_method api_url : string) (response : ApiResult)
| ExecutionError (e : pyexc)
| HandedOver (user_msg : string) (detected_method : option string).

Definition node_api_exec {E} (state : list Message) : Py E NodeResult :=
  let user_msg := last_user_msg state EmptyString in
  let detected := detected_method user_msg in
  let urls := re_findall url_pattern user_msg in
  match urls, detected with
  | api_url :: _, Some detected_method =>
      if str_truthy detected_method then
        try_except
          (let request_data := build_request_data api_url detected_method user_msg in
           response ← execute_api_request request_data;
           if res_success response
           then mret (CallSuccessful detected_method api_url response)
           else mret (CallFailed detected_method api_url response))
          (fun e : pyexc => mret (ExecutionError e))
      else mret (HandedOver user_msg detected)
  | _, _ => mret (HandedOver user_msg detected)
  end.

(** The tie-break as the specification words it: the categories are
    tried in the order PUT, POST, PATCH, DELETE, GET, and the first one
    with any keyword match is taken. *)
Definition priority_order : list string := ["PUT"; "POST"; "PATCH"; "DELETE"; "GET"].

(** The keywords of a category, looked up in the lexicon of the code. *)
Definition category_keywords (category : string) : list string :=
  match List.find (fun entry => String.eqb (str_upper entry.1) category) api_keywords with
  | Some entry => entry.2
  | None => []
  end.

Definition category_matches (user_msg category : string) : bool :=
  any_keyword (category_keywords category) user_msg.

Definition first_matching_category (user_msg : string) : option string :=
  List.find (category_matches user_msg) priority_order.

End ApiRequest.

(** ** [handle_regular_tools_enhanced] *)

Definition newline : string := String (ascii_of_nat 10) EmptyString.

(** Lines 304-325: the three pieces of the system prompt, line by line,
    around the method and the list of tool names that the format string
    inserts. *)
Definition system_prompt_head : string :=
  String.concat newline
    [ "You are an advanced API execution specialist. Your role is to:";
      EmptyString;
      "1. **API Method Expertise**: You understand all HTTP methods (GET, POST, PUT, PATCH, DELETE)";
      "2. **Smart Tool Selection**: Choose the most appropriate tool for the user's request";
      "3. **Error Recovery**: Provide helpful suggestions when API calls fail";
      "4. **Method-Specific Guidance**: Provide specific guidance based on detected method: " ].

Definition system_prompt_middle : string :=
  String.concat newline
    [ EmptyString;
      EmptyString;
      "Available tools: " ].

Definition system_prompt_tail : string :=
  String.concat newline
    [ EmptyString;
      EmptyString;
      "For API-related requests:";
      "- Use search_web for finding public APIs";
      "- Use get_weather for weather information  ";
      "- Use discover_api_endpoint for analyzing unknown APIs";
      "- Provide clear explanations of what each API method does";
      EmptyString;
      "If the user mentions PUT, POST, PATCH, DELETE methods, explain:";
      "- PUT: Complete resource update/replacement";
      "- POST: Create new resource or submit data";
      "- PATCH: Partial resource update";
      "- DELETE: Remove resource";
      EmptyString;
      "Always provide helpful, accurate responses with practical examples." ].

(** Lines 345-351: the dictionary [method_tips]. *)
Definition method_tips : gmap string string :=
  list_to_map
    [ ("PUT", "💡 PUT is used for complete resource updates. The entire resource is replaced.");
      ("POST", "💡 POST is used for creating new resources or submitting data.");
      ("PATCH", "💡 PATCH is used for partial updates - only specified fields are modified.");
      ("DELETE", "💡 DELETE is used for removing resources permanently.");
      ("GET", "💡 GET is used for retrieving data without making changes.") ].

(** Lines 360-363: the message of the [except] clause. *)
Definition fallback_msg (detected_method : option string) : string :=
  let fallback_msg := "I understand you want to work with APIs" in
  let fallback_msg :=
    match detected_method with
    | Some m =>
        if str_truthy m then fallback_msg +:+ " using the " +:+ m +:+ " method"
        else fallback_msg
    | None => fallback_msg
    end in
  fallback_msg +:+ ". I can help you test APIs, but I encountered an issue. Please try rephrasing your request or check if the API endpoint is accessible.".

(** What the language model answers: an object with a [content]
    attribute, an object with [message.content] only, or any other object,
    given by its [str]. *)
Inductive LLMResponse : Type :=
| WithContent (content : string)
| WithMessageContent (content : string)
| OtherResponse (text : string).

(** Lines 336-341 *)
Definition response_content (response : LLMResponse) : string :=
  match response with
  | WithContent content => content
  | WithMessageContent content => content
  | OtherResponse text => text
  end.

Section RegularTools.
Context {rt : PyRuntime}.
(** The tools, with their [name], and the model:
    [get_llm(temperature=0).bind_tools(tools).invoke(messages)], a response
    or an exception. A message is its role and its content. *)
Variable Tool : Type.
Variable tool_name : Tool -> string.
Variable llm_invoke : list Tool -> list (string * string) -> pyexc + LLMResponse.

Definition system_prompt (tools : list Tool) (detected_method : option string) : string :=
  system_prompt_head +:+ str_or detected_method "AUTO-DETECT" +:+
  system_prompt_middle +:+ repr (PList (PStr <$> (tool_name <$> tools))) +:+
  system_prompt_tail.

(** Lines 343-354: the tip that is appended to the answer. *)
Definition add_method_tip (content : string) (detected_method : option string) : string :=
  match detected_method with
  | Some m =>
      if str_truthy m then
        match method_tips !! m with
        | Some tip => content +:+ newline +:+ newline +:+ tip
        | None => content
        end
      else content
  | None => content
  end.

(** The list under the key [messages] of the dictionary returned. *)
Definition handle_regular_tools_enhanced (tools : list Tool) (user_msg : string)
    (detected_method : option string) : list (string * string) :=
  let messages :=
    [("system", system_prompt tools detected_method); ("user", user_msg)] in
  match llm_invoke tools messages with
  | inr response =>
      let content := response_content response in
      [("assistant", add_method_tip content detected_method)]
  | inl e => [("assistant", fallback_msg detected_method)]
  end.

End RegularTools.

(** The dictionary [execute_api_request] returns, by what the network
    answers to its call (lemma [execute_api_request_result]). *)
Definition api_result `{PyRuntime} (transport : Call -> pyexc + Response)
    (request_data : RequestData) : ApiResult :=
  match transport (api_outgoing_call request_data) with
  | inl e =>
      {| res_success := false; res_status := 0; res_url := None;
         res_method := None; res_data := None; res_text := None;
         res_error := Some (exc_str e) |}
  | inr r =>
      {| res_success := resp_ok r;
         res_status := resp_status_code r;
         res_url := Some (resp_url r);
         res_method := Some (str_upper (default "GET" (rq_method request_data)));
         res_data := resp_json r;
         res_text := match resp_json r with
                     | Some _ => None
                     | None => Some (resp_text r)
                     end;
         res_error := None |}
  end.

(** A request with other query fields, everything else unchanged. *)
Definition with_query (req : CustomApiExecuteRequest)
    (query : option (gmap string string)) (key value : option string)
    : CustomApiExecuteRequest :=
  mkRequest (base_url req) (method req) query key value (headers req) (body req).

(** ** A runtime for the examples

    [ascii_runtime] instantiates the library parameters on ASCII text, for
    the examples and the instances of the theorems below: the scheme of a
    URL as [urlsplit] cuts it, with the [ValueError] for an unmatched
    bracket in the network location, the two regular expressions of
    [node_api_exec] matched by hand, and a JSON decoder for the literals
    [null], [true], [false] and the decimal integers that raises on any
    other input. *)

Definition char_isalpha (c : ascii) : bool :=
  let n := N_of_ascii (char_lower c) in ((97 <=? n) && (n <=? 122))%N.

Definition char_isdigit (c : ascii) : bool :=
  let n := N_of_ascii c in ((48 <=? n) && (n <=? 57))%N.

(** [scheme_chars] of [urllib.parse] *)
Definition scheme_char (c : ascii) : bool :=
  char_isalpha c || char_isdigit c ||
  bool_decide (c ∈ ["+"; "-"; "."]%char).

(** [(url[:i], url[i+1:])] for the first [i] with [url[i] == sep] *)
Fixpoint split_at (sep : ascii) (url : string) : option (string * string) :=
  match url with
  | EmptyString => None
  | String c rest =>
      if Ascii.eqb c sep then Some (EmptyString, rest)
      else prod_map (String c) id <$> split_at sep rest
  end.

Fixpoint str_forallb (p : ascii -> bool) (s : string) : bool :=
  match s with
  | EmptyString => true
  | String c s' => p c && str_forallb p s'
  end.

Definition urlsplit_scheme (url : string) : string :=
  match split_at ":" url with
  | Some (String c0 cs, _) =>
      if char_isascii c0 && char_isalpha c0 && str_forallb scheme_char (String c0 cs)
      then str_map char_lower (String c0 cs)
      else EmptyString
  | _ => EmptyString
  end.

(** The rest of the URL after the scheme and its colon; the whole URL
    when it has no scheme. *)
Definition after_scheme (url : string) : string :=
  match split_at ":" url with
  | Some (String c0 cs, rest) =>
      if char_isascii c0 && char_isalpha c0 && str_forallb scheme_char (String c0 cs)
      then rest
      else url
  | _ => url
  end.

(** The longest prefix of characters satisfying [p], and the rest. *)
Fixpoint span (p : ascii -> bool) (s : string) : string * string :=
  match s with
  | EmptyString => (EmptyString, EmptyString)
  | String c s' =>
      if p c then prod_map (String c) id (span p s') else (EmptyString, s)
  end.

Fixpoint drop_prefix (p s : string) : option string :=
  match p, s with
  | EmptyString, _ => Some s
  | String a p', String b s' => if Ascii.eqb a b then drop_prefix p' s' else None
  | _, EmptyString => None
  end.

(** [_splitnetloc]: the network location, between the two slashes and
    the next slash, question mark or hash. *)
Definition netloc (url : string) : string :=
  match drop_prefix "//" (after_scheme url) with
  | Some rest => (span (fun c => negb (bool_decide (c ∈ ["/"; "?"; "#"]%char))) rest).1
  | None => EmptyString
  end.

(** [urlsplit]: a network location with one bracket and not the other is
    refused. *)
Definition urlsplit (url : string) : pyexc + string :=
  if xorb (str_in "[" (netloc url)) (str_in "]" (netloc url))
  then inl (PyExc ValueError "Invalid IPv6 URL")
  else inr (urlsplit_scheme url).

(** [\s] on ASCII *)
Definition char_isspace (c : ascii) : bool :=
  let n := N_of_ascii c in
  ((9 <=? n) && (n <=? 13) || (28 <=? n) && (n <=? 32))%N.

(** The negated character class of [url_pattern]: anything but white
    space and the listed delimiters. *)
Definition url_char (c : ascii) : bool :=
  negb (char_isspace c ||
        bool_decide (c ∈ ["<"; ">"; ascii_of_nat 34; "{"; "}"; "|"; "^"; "`"; "["; "]"]%char)).

(** A match of [url_pattern] at the start of [s]. *)
Definition match_url (s : string) : option string :=
  let after (prefix : string) :=
    rest ← drop_prefix prefix s;
    let '(chars, _) := span url_char rest in
    if String.eqb chars EmptyString then None else Some (prefix +:+ chars) in
  match after "http://" with
  | Some u => Some u
  | None => after "https://"
  end.

(** A match of [json_pattern] at the start of [s]. *)
Definition match_object (s : string) : option string :=
  match s with
  | String "{" rest =>
      let '(chars, tail) := span (fun c => negb (bool_decide (c ∈ ["{"; "}"]%char))) rest in
      match tail with
      | String "}" _ => Some ("{" +:+ chars +:+ "}")
      | _ => None
      end
  | _ => None
  end.

(** All non-overlapping matches, leftmost first; [skip] characters belong
    to the previous match. *)
Fixpoint findall_with (matcher : string -> option string) (skip : nat) (s : string)
    : list string :=
  match s with
  | EmptyString => []
  | String _ s' =>
      match skip with
      | S k => findall_with matcher k s'
      | O =>
          match matcher s with
          | Some m => m :: findall_with matcher (String.length m - 1) s'
          | None => findall_with matcher 0 s'
          end
      end
  end.

Fixpoint digits_value (acc : Z) (s : string) : option Z :=
  match s with
  | EmptyString => Some acc
  | String c s' =>
      if char_isdigit c
      then digits_value (10 * acc + Z.of_N (N_of_ascii c) - 48) s'
      else None
  end.

(** A JSON integer: an optional minus sign, then [0] or digits that do
    not start with [0]. *)
Definition decode_int (s : string) : option Z :=
  let unsigned (d : string) :=
    match d with
    | EmptyString => None
    | String "0" (String _ _) => None
    | _ => digits_value 0 d
    end in
  match s with
  | String "-" d => Z.opp <$> unsigned d
  | _ => unsigned s
  end.

Definition decode_literal (s : string) : option pyval :=
  if String.eqb s "null" then Some PNone
  else if String.eqb s "true" then Some (PBool true)
  else if String.eqb s "false" then Some (PBool false)
  else PInt <$> decode_int s.

Definition repr_scalar (v : pyval) : string :=
  match v with
  | PNone => "None"
  | PBool true => "True"
  | PBool false => "False"
  | _ => EmptyString
  end.

Definition ascii_runtime (now : pyfloat) : PyRuntime :=
  {| unicode_upper := id;
     unicode_lower := id;
     json_loads := decode_literal;
     repr := repr_scalar;
     urlparse_scheme := urlsplit;
     re_findall := fun pattern text =>
       if String.eqb pattern url_pattern then findall_with match_url 0 text
       else if String.eqb pattern json_pattern then findall_with match_object 0 text
       else [];
     time_time := now |}.

(** A server that answers every call with the same response, and a
    network on which every call fails with the same exception. *)
Definition stub_server (r : Response) : Call -> pyexc + Response := fun _ => inr r.
Definition broken_network (e : pyexc) : Call -> pyexc + Response := fun _ => inl e.

Definition json_response (status : Z) (url : string) (v : pyval) : Response :=
  {| resp_status_code := status; resp_url := url; resp_headers := ∅;
     resp_text := EmptyString; resp_json := Some v |}.

Definition text_response (status : Z) (url text : string) : Response :=
  {| resp_status_code := status; resp_url := url; resp_headers := ∅;
     resp_text := text; resp_json := None |}.

(** ** Requests for the examples *)

(** A POST to an accepted URL, and the same request as a dictionary. *)
Definition post_request : CustomApiExecuteRequest :=
  mkRequest "https://example.test/posts" (Some "POST") None None None None
    (PDict [("title", PStr "x")]).

Definition post_request_data : RequestData :=
  mkRequestData "https://example.test/posts" (Some "POST") None
    (PDict [("title", PStr "x")]) None.

Definition read_timeout : pyexc := PyExc ReadTimeout "Read timed out.".

(** A POST whose body is a string that is not JSON, a DELETE with query
    parameters and no body, and a request with a method the executor does
    not know. *)
Definition raw_text_request : CustomApiExecuteRequest :=
  mkRequest "https://example.test/notes" (Some "POST") None None None None
    (PStr "hello").

Definition delete_request : CustomApiExecuteRequest :=
  mkRequest "https://example.test/items" (Some "DELETE") (Some {["id" := "7"]})
    None None None PNone.

Definition delete_request_data : RequestData :=
  mkRequestData "https://example.test/items" (Some "DELETE") (Some {["id" := "7"]})
    PNone None.

Definition options_request : CustomApiExecuteRequest :=
  mkRequest "https://example.test/items" (Some "OPTIONS") (Some {["id" := "7"]})
    None None None PNone.

Definition options_request_data : RequestData :=
  mkRequestData "https://example.test/items" (Some "OPTIONS") (Some {["id" := "7"]})
    PNone None.

Definition ok_server : Call -> pyexc + Response :=
  stub_server (json_response 200 "https://example.test/items" (PDict [])).

(** A conversation whose last human message asks for an update of a
    URL and carries no JSON object. *)
Definition update_conversation : list Message :=
  [ mkMessage (Some "Hello") (Some "human") None;
    mkMessage (Some "How can I help?") (Some "ai") None;
    mkMessage (Some "please update https://example.test/posts/1") (Some "human") None ].

(** A request with an [ftp] URL, a GET whose [body] field is not empty,
    a response with status 404 and a JSON payload, and a clock reading. *)
Definition ftp_request : CustomApiExecuteRequest :=
  mkRequest "ftp://example.test/file" (Some "GET") None None None None PNone.

(** The same with an opening bracket in the network location. *)
Definition bracket_request : CustomApiExecuteRequest :=
  mkRequest "ftp://[example.test/file" (Some "GET") None None None None PNone.

Definition get_request : CustomApiExecuteRequest :=
  mkRequest "https://example.test/items" (Some "get") (Some {["page" := "2"]})
    None None None (PDict [("title", PStr "x")]).

Definition get_request_data : RequestData :=
  mkRequestData "https://example.test/items" (Some "get") (Some {["page" := "2"]})
    (PDict [("title", PStr "x")]) None.

Definition not_found : Response :=
  json_response 404 "https://example.test/posts" (PDict [("error", PStr "gone")]).

Definition noon : pyfloat := Finite 7201 (-2).

(** ** More inputs for the examples *)

(** A decoder that also reads an object with one string key and an
    integer value, written [{"key": 12}], and the runtime that uses it. *)
Definition decode_pair (s : string) : option pyval :=
  rest ← drop_prefix ("{" +:+ dquote) s;
  let '(key, rest) := span (fun c => negb (Ascii.eqb c (ascii_of_nat 34))) rest in
  rest ← drop_prefix (dquote +:+ ": ") rest;
  let '(digits, rest) := span (fun c => char_isdigit c || Ascii.eqb c "-") rest in
  n ← decode_int digits;
  if String.eqb rest "}" then Some (PDict [(key, PInt n)]) else None.

Definition decode_value (s : string) : option pyval :=
  match decode_literal s with
  | Some v => Some v
  | None => decode_pair s
  end.

Definition object_runtime (now : pyfloat) : PyRuntime :=
  {| unicode_upper := id;
     unicode_lower := id;
     json_loads := decode_value;
     repr := repr_scalar;
     urlparse_scheme := urlsplit;
     re_findall := re_findall (PyRuntime := ascii_runtime now);
     time_time := now |}.

(** An update that carries a JSON object, a fetch, and the update of
    [update_conversation] once the assistant has answered. *)
Definition update_with_body : string :=
  "update https://example.test/posts/1 with {" +:+ dquote +:+ "likes" +:+ dquote +:+ ": 12}".

Definition update_with_body_conversation : list Message :=
  [ mkMessage (Some update_with_body) None (Some "user") ].

Definition fetch_conversation : list Message :=
  [ mkMessage (Some "fetch https://example.test/items {x}") (Some "human") None ].

Definition answered_conversation : list Message :=
  update_conversation ++
  [ mkMessage (Some "Done.") (Some "ai") None;
    mkMessage None (Some "human") None ].

(** A POST with a body and query fields, an exception of the HTTP
    library that is neither a time-out nor a connection error, and a model
    that always gives the same answer. *)
Definition post_with_query : CustomApiExecuteRequest :=
  with_query post_request (Some {["page" := "2"]}) (Some "q") (Some "x").

Definition too_many_redirects : pyexc :=
  PyExc RequestException "Exceeded 30 redirects.".

Definition fixed_model (answer : pyexc + LLMResponse)
    : list string -> list (string * string) -> pyexc + LLMResponse :=
  fun _ _ => answer.

(** * Properties *)

(** ** The definitions on small inputs *)

Example upper_delete `{PyRuntime} : str_upper "delete" = "DELETE".
Proof. reflexivity. Qed.

Example in_computer : str_in "put" "computer" = true /\ str_in "get" "computer" = false.
Proof. split; reflexivity. Qed.

Example scheme_examples :
  urlsplit_scheme "HTTPS://example.test/a:b" = "https" /\
  urlsplit_scheme "ftp://example.test" = "ftp" /\
  urlsplit_scheme "example.test/path" = EmptyString /\
  urlsplit_scheme "1http://example.test" = EmptyString.
Proof. repeat split. Qed.

Example urlsplit_examples :
  urlsplit "https://example.test/a[b" = inr "https" /\
  urlsplit "http://[::1]:8000/items" = inr "http" /\
  urlsplit "ftp://[example.test/file" = inl (PyExc ValueError "Invalid IPv6 URL") /\
  urlsplit "//example.test]/x" = inl (PyExc ValueError "Invalid IPv6 URL").
Proof. repeat split. Qed.

Example findall_urls :
  re_findall (PyRuntime := ascii_runtime NaN) url_pattern
    "get http://a.test/x?y=1 and https://b.test/{id} but not http:// alone" =
  ["http://a.test/x?y=1"; "https://b.test/"].
Proof. reflexivity. Qed.

Example findall_objects :
  re_findall (PyRuntime := ascii_runtime NaN) json_pattern "a {b {c} d} {} {" = ["{c}"; "{}"].
Proof. reflexivity. Qed.

Example decode_examples :
  decode_literal "null" = Some PNone /\ decode_literal "-12" = Some (PInt (-12)) /\
  decode_literal "012" = None /\ decode_literal "hello" = None.
Proof. repeat split. Qed.

Example detect_examples `{PyRuntime} :
  detected_method "Remove the item, then FETCH it" = Some "DELETE" /\
  detected_method "a partial post" = Some "POST" /\
  detected_method "hello there" = None.
Proof. repeat split. Qed.

Example last_message `{PyRuntime} :
  last_user_msg update_conversation EmptyString =
    "please update https://example.test/posts/1".
Proof. reflexivity. Qed.

(** ** Strings *)

Lemma startswith_app (sub s : string) :
  str_startswith sub s = true <-> exists post, s = sub +:+ post.
Proof.
  revert s. induction sub as [|a sub IH]; intros s; simpl.
  - split; [intros _; by exists s | done].
  - destruct s as [|b s].
    + split; [done | intros [post Hpost]; discriminate].
    + rewrite andb_true_iff, Ascii.eqb_eq, IH. split.
      * intros [-> [post ->]]. by exists post.
      * intros [post Hpost]. injection Hpost as -> ->. split; [done | by exists post].
Qed.

(** [str_in] is substring containment. *)
Lemma str_in_spec (sub s : string) :
  str_in sub s = true <-> exists pre post, s = pre +:+ sub +:+ post.
Proof.
  induction s as [|c s IH].
  - simpl. rewrite orb_false_r, startswith_app. split.
    + intros [post Hpost]. by exists EmptyString, post.
    + intros [[|a pre] [post Hpost]]; [by exists post | discriminate].
  - cbn [str_in]. rewrite orb_true_iff, startswith_app, IH. split.
    + intros [[post Hpost] | (pre & post & Hs)].
      * by exists EmptyString, post.
      * exists (String c pre), post. by rewrite Hs.
    + intros ([|a pre] & post & Hs).
      * left. by exists post.
      * right. exists pre, post. by injection Hs.
Qed.

(** ** Running the executors *)

Ltac py_unfold :=
  unfold calls_of, result_of, run, try_except, requests_get, requests_request,
    read_local, raise, mbind, mret, Py_bind, Py_ret.

Section ExecutorFacts.
Context {rt : PyRuntime}.
Variable transport : Call -> pyexc + Response.

Lemma url_accepted_scheme (url : string) :
  url_accepted url = true ->
  exists scheme,
    urlparse_scheme url = inr scheme /\
    negb (bool_decide (scheme ∈ ["http"; "https"])) = false.
Proof.
  unfold url_accepted. destruct (urlparse_scheme url) as [e|scheme]; [done|].
  intros Hin. exists scheme. by rewrite Hin.
Qed.

Lemma send_request_run method req params hdrs log :
  send_request transport method req params hdrs log =
    (match transport (outgoing_call method req params hdrs) with
     | inl e => Raises e
     | inr r => Returns (r, json_body_after method req params)
     end, log ++ [outgoing_call method req params hdrs]).
Proof.
  unfold send_request, outgoing_call, json_body_after. py_unfold.
  destruct (String.eqb method "GET"); [by destruct (transport _)|].
  destruct (bool_decide _).
  - destruct (body_arguments params (body req)) as [jb dp]. simpl.
    by destruct (transport _).
  - by destruct (transport _).
Qed.

(** Once the URL is accepted exactly one call is made, whatever the
    network answers. *)
Lemma execute_custom_api_calls req :
  url_accepted (base_url req) = true ->
  let method := str_upper (str_or (method req) "GET") in
  calls_of (execute_custom_api transport req) =
    [outgoing_call method req (merge_params req) (request_headers method req)].
Proof.
  intros Hscheme method.
  destruct (url_accepted_scheme _ Hscheme) as (scheme & Hparse & Hin).
  unfold calls_of, run, execute_custom_api.
  rewrite Hparse, Hin.
  unfold try_except at 1. unfold mbind, Py_bind at 1.
  rewrite send_request_run. fold method.
  destruct (transport _) as [e|r]; [done|].
  destruct (json_body_after _ _ _); by py_unfold.
Qed.

(** A URL that is not accepted: nothing is sent. The URL is rejected
    when it parses, and the exception of [urlparse] goes up when it does
    not. *)
Lemma execute_custom_api_rejects req :
  url_accepted (base_url req) = false ->
  run (execute_custom_api transport req) =
    (Raises
       match urlparse_scheme (base_url req) with
       | inl e => Uncaught e
       | inr _ => Http (mkHTTPException 400 "Only http/https URLs are allowed")
       end, []).
Proof.
  unfold url_accepted, run, execute_custom_api.
  destruct (urlparse_scheme (base_url req)) as [e|scheme]; [done|].
  by intros ->.
Qed.

(** The answer of [execute_custom_api], by what the network does with the
    call. *)
Lemma execute_custom_api_result req :
  url_accepted (base_url req) = true ->
  let method := str_upper (str_or (method req) "GET") in
  let params := merge_params req in
  let hdrs := request_headers method req in
  result_of (execute_custom_api transport req) =
    match transport (outgoing_call method req params hdrs) with
    | inl e => Raises (http_exception_of e)
    | inr r =>
        match json_body_after method req params with
        | None =>
            Raises (mkHTTPException 500
              ("Internal error: " +:+
               "cannot access local variable 'json_body' where it is not associated with a value"))
        | Some json_body =>
            Returns
              {| rd_success := resp_ok r;
                 rd_status := resp_status_code r;
                 rd_url := resp_url r;
                 rd_method := method;
                 rd_headers := resp_headers r;
                 rd_data := resp_json r;
                 rd_text := match resp_json r with
                            | Some _ => None
                            | None => Some (resp_text r)
                            end;
                 rd_content_type := match resp_json r with
                                    | Some _ => "json"
                                    | None => "text"
                                    end;
                 rd_request_headers := hdrs;
                 rd_request_body := if truthy json_body then Some json_body else None;
                 rd_request_params := params_or_None params |}
        end
    end.
Proof.
  intros Hscheme method params hdrs.
  destruct (url_accepted_scheme _ Hscheme) as (scheme & Hparse & Hin).
  unfold result_of, run, execute_custom_api.
  rewrite Hparse, Hin.
  unfold try_except at 1. unfold mbind, Py_bind at 1.
  rewrite send_request_run. fold method. fold params. fold hdrs.
  destruct (transport _) as [e|r]; [done|].
  destruct (json_body_after _ _ _); by py_unfold.
Qed.

End ExecutorFacts.

Section ApiRequestFacts.
Context {rt : PyRuntime}.
Variable transport : Call -> pyexc + Response.

(** [execute_api_request] always returns, after exactly one call. *)
Lemma execute_api_request_run {E} request_data log :
  execute_api_request (E:=E) transport request_data log =
    (Returns
       match transport (api_outgoing_call request_data) with
       | inl e =>
           {| res_success := false; res_status := 0; res_url := None;
              res_method := None; res_data := None; res_text := None;
              res_error := Some (exc_str e) |}
       | inr r =>
           {| res_success := resp_ok r;
              res_status := resp_status_code r;
              res_url := Some (resp_url r);
              res_method := Some (str_upper (default "GET" (rq_method request_data)));
              res_data := resp_json r;
              res_text := match resp_json r with
                          | Some _ => None
                          | None => Some (resp_text r)
                          end;
              res_error := None |}
       end,
     log ++ [api_outgoing_call request_data]).
Proof.
  unfold execute_api_request, api_outgoing_call. py_unfold.
  destruct (String.eqb _ "GET"); [by destruct (transport _)|].
  destruct (bool_decide _); by destruct (transport _).
Qed.

End ApiRequestFacts.

(** ** The executor: URL validation and GET *)

Section ExecutorClaims.
Context {rt : PyRuntime}.
Variable transport : Call -> pyexc + Response.

(** X21. A request whose URL [urlparse] parses with a scheme that is
    neither [http] nor [https] is rejected by [execute_custom_api] with
    [HTTPException(400, "Only http/https URLs are allowed")], and the log
    of transport calls is empty: the rejection happens before any network
    activity. *)
Theorem invalid_url_rejected_before_network
    (req : CustomApiExecuteRequest) (scheme : string) :
  urlparse_scheme (base_url req) = inr scheme ->
  scheme ≠ "http" ->
  scheme ≠ "https" ->
  result_of (execute_custom_api transport req) =
    Raises (mkHTTPException 400 "Only http/https URLs are allowed") /\
  calls_of (execute_custom_api transport req) = [].
Proof.
  intros Hparse Hhttp Hhttps.
  assert (url_accepted (base_url req) = false) as Hscheme.
  { unfold url_accepted. rewrite Hparse. apply bool_decide_eq_false_2.
    rewrite !elem_of_cons, elem_of_nil. tauto. }
  unfold result_of, calls_of.
  by rewrite (execute_custom_api_rejects transport req Hscheme), Hparse.
Qed.

(** For [GET] the headers are the caller's plus the default
    [User-Agent]; no content type is added. *)
Lemma request_headers_GET req :
  request_headers "GET" req = with_user_agent (dict_or_empty (headers req)).
Proof. reflexivity. Qed.

(** C6. For a request with method GET, neither executor attaches a body
    to the outgoing call, whatever the [body] field holds: the only call
    is a [GET] to the target URL with [json] and [data] unset, carrying the
    query parameters and the headers. ([execute_custom_api] makes this
    call when the URL scheme is accepted and none otherwise.) *)
Theorem get_never_sends_a_body
    (req : CustomApiExecuteRequest) (request_data : RequestData) :
  str_upper (str_or (method req) "GET") = "GET" ->
  str_upper (default "GET" (rq_method request_data)) = "GET" ->
  calls_of (execute_custom_api transport req) =
    (if url_accepted (base_url req)
     then [ {| call_method := "GET";
               call_url := base_url req;
               call_params := params_or_None (merge_params req);
               call_json := PNone;
               call_data := None;
               call_headers := with_user_agent (dict_or_empty (headers req));
               call_timeout := 30;
               call_allow_redirects := true |} ]
     else []) /\
  calls_of (execute_api_request (E:=Empty_set) transport request_data) =
    [ {| call_method := "GET";
         call_url := rq_base_url request_data;
         call_params := Some (default ∅ (rq_query_params request_data));
         call_json := PNone;
         call_data := None;
         call_headers := with_user_agent (default ∅ (rq_headers request_data));
         call_timeout := 30;
         call_allow_redirects := true |} ].
Proof.
  intros Hreq Hdata. split.
  - destruct (url_accepted (base_url req)) eqn:Hscheme.
    + rewrite (execute_custom_api_calls transport req Hscheme), Hreq.
      by rewrite request_headers_GET.
    + unfold calls_of. by rewrite (execute_custom_api_rejects transport req Hscheme).
  - unfold calls_of, run. rewrite execute_api_request_run.
    unfold api_outgoing_call. by rewrite Hdata.
Qed.

End ExecutorClaims.

(** X21 on an [ftp] URL. *)
Lemma invalid_url_rejected_ftp :
  result_of (execute_custom_api (rt:=ascii_runtime NaN) ok_server ftp_request) =
    Raises (mkHTTPException 400 "Only http/https URLs are allowed") /\
  calls_of (execute_custom_api (rt:=ascii_runtime NaN) ok_server ftp_request) = [].
Proof.
  apply (invalid_url_rejected_before_network (rt:=ascii_runtime NaN) ok_server
           ftp_request "ftp"); by vm_compute.
Defined.

(** C5 on [execute_custom_api]: the URL [ftp://[example.test/file] has the
    scheme [ftp] and a network location with an unmatched bracket.
    [urlparse], called before the [try] block, raises [ValueError] on it,
    and that exception leaves the executor as it is: the request is not
    rejected with [HTTPException(400)]. No call is made. *)
Lemma malformed_url_raises_value_error :
  urlparse_scheme (PyRuntime := ascii_runtime NaN) (base_url bracket_request) =
    inl (PyExc ValueError "Invalid IPv6 URL") /\
  run (execute_custom_api (rt:=ascii_runtime NaN) ok_server bracket_request) =
    (Raises (Uncaught (PyExc ValueError "Invalid IPv6 URL")), []) /\
  result_of (execute_custom_api (rt:=ascii_runtime NaN) ok_server bracket_request) ≠
    Raises (mkHTTPException 400 "Only http/https URLs are allowed").
Proof. repeat split. discriminate. Qed.

(** An instance of C6: a GET whose [body] field is not empty. *)
Lemma get_with_body_field :
  call_json <$> calls_of (execute_custom_api (rt:=ascii_runtime NaN)
                            ok_server get_request) = [PNone] /\
  call_json <$> calls_of (execute_api_request (rt:=ascii_runtime NaN) (E:=Empty_set)
                            ok_server get_request_data) = [PNone].
Proof.
  destruct (get_never_sends_a_body (rt:=ascii_runtime NaN) ok_server
              get_request get_request_data)
    as [-> ->]; [reflexivity | reflexivity |].
  split; reflexivity.
Defined.

(** ** The executor: failures of the network *)

Section FailureClaims.
Context {rt : PyRuntime}.
Variable transport : Call -> pyexc + Response.

(** C2, as the code has it. When the HTTP call times out or the
    connection fails, [execute_api_request] returns a failed result with
    [success = False], [status = 0] and the text of the exception in
    [error], and raises nothing. [execute_custom_api] does not return a
    result: it raises [HTTPException], with status 408 for a time-out and
    502 for a connection failure. *)
Theorem network_failure_is_reported
    (e : pyexc) (req : CustomApiExecuteRequest) (request_data : RequestData) :
  (forall c, transport c = inl e) ->
  isinstance_Timeout (exc_class_of e) || isinstance_ConnectionError (exc_class_of e) = true ->
  url_accepted (base_url req) = true ->
  result_of (execute_api_request (E:=Empty_set) transport request_data) =
    Returns {| res_success := false; res_status := 0; res_url := None;
               res_method := None; res_data := None; res_text := None;
               res_error := Some (exc_str e) |} /\
  result_of (execute_custom_api transport req) =
    Raises (if isinstance_Timeout (exc_class_of e)
            then mkHTTPException 408 "API request timed out"
            else mkHTTPException 502 "Failed to connect to API endpoint").
Proof.
  intros Hdown Hkind Hscheme. split.
  - unfold result_of, run. rewrite execute_api_request_run. by rewrite Hdown.
  - rewrite (execute_custom_api_result transport req Hscheme), Hdown.
    unfold http_exception_of.
    destruct (isinstance_Timeout _); [done|].
    simpl in Hkind. by rewrite Hkind.
Qed.

End FailureClaims.

(** C2 as the specification states it fails on [execute_custom_api]: on a
    network that times out, the call raises instead of returning a failed
    result. *)
Lemma custom_api_timeout_raises :
  result_of (execute_custom_api (rt:=ascii_runtime NaN)
               (broken_network read_timeout) post_request) =
    Raises (mkHTTPException 408 "API request timed out") /\
  forall response_data,
    result_of (execute_custom_api (rt:=ascii_runtime NaN)
                 (broken_network read_timeout) post_request) ≠
    Returns response_data.
Proof.
  assert (result_of (execute_custom_api (rt:=ascii_runtime NaN)
                       (broken_network read_timeout) post_request) =
          Raises (mkHTTPException 408 "API request timed out")) as H
    by reflexivity.
  split; [exact H|]. intros response_data. by rewrite H.
Qed.

(** An instance of the amended C2: a read time-out. *)
Lemma network_failure_read_timeout :
  result_of (execute_api_request (rt:=ascii_runtime NaN) (E:=Empty_set)
               (broken_network read_timeout) post_request_data) =
    Returns {| res_success := false; res_status := 0; res_url := None;
               res_method := None; res_data := None; res_text := None;
               res_error := Some "Read timed out." |} /\
  result_of (execute_custom_api (rt:=ascii_runtime NaN)
               (broken_network read_timeout) post_request) =
    Raises (mkHTTPException 408 "API request timed out").
Proof.
  apply (network_failure_is_reported (rt:=ascii_runtime NaN)
           (broken_network read_timeout) read_timeout post_request post_request_data).
  - reflexivity.
  - reflexivity.
  - apply (bool_decide_unpack _). by vm_compute.
Defined.

(** ** The executor: the success flag *)

Lemma resp_ok_status (r : Response) :
  resp_ok r = bool_decide (¬ (400 <= resp_status_code r < 600)).
Proof.
  unfold resp_ok. case_bool_decide as H.
  - apply negb_true_iff, orb_false_iff.
    rewrite !andb_false_iff, !Z.leb_gt, !Z.ltb_ge. lia.
  - apply negb_false_iff, orb_true_iff.
    rewrite !andb_true_iff, !Z.leb_le, !Z.ltb_lt. lia.
Qed.

Section SuccessClaims.
Context {rt : PyRuntime}.
Variable transport : Call -> pyexc + Response.

(** On the four methods that carry a body the local variable [json_body]
    is assigned. *)
Lemma json_body_after_assigned method req params :
  method ∈ ["POST"; "PUT"; "PATCH"; "DELETE"] ->
  json_body_after method req params = Some (body_arguments params (body req)).1.
Proof.
  intros Hin. unfold json_body_after.
  rewrite (bool_decide_eq_true_2 _ Hin).
  rewrite !elem_of_cons, elem_of_nil in Hin.
  by destruct Hin as [-> | [-> | [-> | [-> | []]]]].
Qed.

(** C3, as the code has it. For a call that completes with a response
    and whose result is returned (every call of [execute_api_request]; the
    POST, PUT, PATCH and DELETE calls of [execute_custom_api]), the
    [success] flag is [Response.ok]: true exactly when the status code is
    outside [400, 600). It is therefore true for every status in
    [200, 400) and false for every status in [400, 600), and it does not
    depend on whether the payload parses as JSON ([resp_json r] is
    arbitrary). *)
Theorem success_follows_status_code
    (r : Response) (req : CustomApiExecuteRequest) (request_data : RequestData) :
  (forall c, transport c = inr r) ->
  url_accepted (base_url req) = true ->
  str_upper (str_or (method req) "GET") ∈ ["POST"; "PUT"; "PATCH"; "DELETE"] ->
  let success := bool_decide (¬ (400 <= resp_status_code r < 600)) in
  (exists result,
     result_of (execute_api_request (E:=Empty_set) transport request_data) = Returns result /\
     res_success result = success /\ res_status result = resp_status_code r) /\
  (exists response_data,
     result_of (execute_custom_api transport req) = Returns response_data /\
     rd_success response_data = success /\ rd_status response_data = resp_status_code r) /\
  (200 <= resp_status_code r < 400 -> success = true) /\
  (400 <= resp_status_code r < 600 -> success = false).
Proof.
  intros Hup Hscheme Hmethod success. repeat split.
  - eexists. unfold result_of, run. rewrite execute_api_request_run, Hup.
    simpl. repeat split. apply resp_ok_status.
  - eexists. rewrite (execute_custom_api_result transport req Hscheme), Hup.
    rewrite (json_body_after_assigned _ _ _ Hmethod).
    repeat split. apply resp_ok_status.
  - intros Hs. apply bool_decide_eq_true_2. lia.
  - intros Hs. apply bool_decide_eq_false_2. tauto.
Qed.

End SuccessClaims.

(** C3 as the specification states it fails: a response with the
    informational status 102 is outside [200, 400), and the result has
    [success = True]. *)
Lemma success_with_status_102 :
  result_of (execute_api_request (rt:=ascii_runtime NaN) (E:=Empty_set)
               (stub_server (text_response 102 "https://example.test/posts" EmptyString))
               post_request_data) =
    Returns {| res_success := true; res_status := 102;
               res_url := Some "https://example.test/posts";
               res_method := Some "POST"; res_data := None;
               res_text := Some EmptyString; res_error := None |} /\
  ¬ (200 <= 102 < 400).
Proof. split; [reflexivity | lia]. Qed.

(** An instance of the amended C3: status 404 with a JSON payload. *)
Lemma success_false_on_404 :
  (exists result,
     result_of (execute_api_request (rt:=ascii_runtime NaN) (E:=Empty_set)
                  (stub_server not_found) post_request_data) = Returns result /\
     res_success result = false /\ res_status result = 404) /\
  (exists response_data,
     result_of (execute_custom_api (rt:=ascii_runtime NaN)
                  (stub_server not_found) post_request) = Returns response_data /\
     rd_success response_data = false /\ rd_status response_data = 404).
Proof.
  destruct (success_follows_status_code (rt:=ascii_runtime NaN) (stub_server not_found)
              not_found post_request post_request_data) as (H1 & H2 & _).
  - reflexivity.
  - apply (bool_decide_unpack _). by vm_compute.
  - apply (bool_decide_unpack _). by vm_compute.
  - split; [exact H1 | exact H2].
Defined.

(** ** The executor: request bodies *)

Section BodyClaims.
Context {rt : PyRuntime}.
Variable transport : Call -> pyexc + Response.

Lemma with_user_agent_content_type (hdrs : gmap string string) :
  with_user_agent hdrs !! "Content-Type" = hdrs !! "Content-Type".
Proof.
  unfold with_user_agent. case_bool_decide; [|done].
  by rewrite lookup_insert_ne.
Qed.

(** The content type sent with a POST, PUT or PATCH: the caller's, and
    [application/json] when the caller gave none and the body is truthy. *)
Lemma request_headers_content_type method req :
  method ∈ ["POST"; "PUT"; "PATCH"] ->
  request_headers method req !! "Content-Type" =
    (let given := dict_or_empty (headers req) !! "Content-Type" in
     if truthy (body req) then Some (default "application/json" given) else given).
Proof.
  intros Hin. unfold request_headers.
  rewrite with_user_agent_content_type, (bool_decide_eq_true_2 _ Hin). simpl.
  destruct (truthy (body req)); [|done].
  case_bool_decide as Hgiven.
  - by rewrite lookup_insert_eq, Hgiven.
  - by destruct (dict_or_empty (headers req) !! "Content-Type").
Qed.

(** C4, as the code has it. For a POST, PUT or PATCH whose body is a
    string, [execute_custom_api] first tries to decode the string as JSON:
    when that succeeds the decoded value is passed as [json=] and no raw
    data is sent, when it fails the string itself is passed as [data=] and
    [json=] is unset. The [Content-Type] header does not depend on the
    outcome of the decoding: it is the caller's when the caller gave one,
    [application/json] when the caller gave none and the string is not
    empty, and absent when the caller gave none and the string is empty. *)
Theorem string_body_is_decoded_or_sent_raw (req : CustomApiExecuteRequest) (s : string) :
  url_accepted (base_url req) = true ->
  str_upper (str_or (method req) "GET") ∈ ["POST"; "PUT"; "PATCH"] ->
  body req = PStr s ->
  exists c,
    calls_of (execute_custom_api transport req) = [c] /\
    call_method c = str_upper (str_or (method req) "GET") /\
    (call_json c, call_data c) =
      match json_loads s with
      | Some parsed => (parsed, None)
      | None => (PNone, Some s)
      end /\
    call_headers c !! "Content-Type" =
      (let given := dict_or_empty (headers req) !! "Content-Type" in
       if String.eqb s EmptyString then given
       else Some (default "application/json" given)).
Proof.
  intros Hscheme Hmethod Hbody.
  eexists. split; [apply (execute_custom_api_calls transport req Hscheme)|].
  set (M := str_upper (str_or (method req) "GET")) in *.
  assert (outgoing_call M req (merge_params req) (request_headers M req) =
          let jb := body_arguments (merge_params req) (body req) in
          mkCall M (base_url req) None jb.1 jb.2 (request_headers M req) 30 true) as ->.
  { unfold outgoing_call. rewrite !elem_of_cons, elem_of_nil in Hmethod.
    by destruct Hmethod as [-> | [-> | [-> | []]]]. }
  simpl. split; [done|]. split.
  - rewrite Hbody. simpl. by destruct (json_loads s).
  - rewrite (request_headers_content_type _ _ Hmethod), Hbody. simpl.
    by destruct (String.eqb s EmptyString).
Qed.

(** The defect behind C1, in general: a DELETE without a body whose
    query parameters are not empty sends them as the JSON body, and sends
    no query string. *)
Lemma delete_without_body_promotes_params (req : CustomApiExecuteRequest) :
  url_accepted (base_url req) = true ->
  str_upper (str_or (method req) "GET") = "DELETE" ->
  body req = PNone ->
  merge_params req ≠ ∅ ->
  calls_of (execute_custom_api transport req) =
    [ {| call_method := "DELETE";
         call_url := base_url req;
         call_params := None;
         call_json := dict_value (merge_params req);
         call_data := None;
         call_headers := with_user_agent (dict_or_empty (headers req));
         call_timeout := 30;
         call_allow_redirects := true |} ].
Proof.
  intros Hscheme Hmethod Hbody Hparams.
  rewrite (execute_custom_api_calls transport req Hscheme), Hmethod.
  unfold outgoing_call, body_arguments, request_headers, dict_truthy. simpl.
  rewrite Hbody, (bool_decide_eq_false_2 _ Hparams). simpl.
  destruct (map_to_list (merge_params req)) as [|kv l] eqn:Hl; [|done].
  by apply map_to_list_empty_iff in Hl.
Qed.

(** [execute_api_request] does send the parameters of a DELETE as the
    query string, with the body it was given as [json=]. *)
Lemma api_request_delete_keeps_query_string (request_data : RequestData) :
  str_upper (default "GET" (rq_method request_data)) = "DELETE" ->
  calls_of (execute_api_request (E:=Empty_set) transport request_data) =
    [ {| call_method := "DELETE";
         call_url := rq_base_url request_data;
         call_params := Some (default ∅ (rq_query_params request_data));
         call_json := rq_body request_data;
         call_data := None;
         call_headers := with_user_agent (default ∅ (rq_headers request_data));
         call_timeout := 30;
         call_allow_redirects := true |} ].
Proof.
  intros Hmethod. unfold calls_of, run. rewrite execute_api_request_run.
  unfold api_outgoing_call. by rewrite Hmethod.
Qed.

End BodyClaims.

(** C4 as the specification states it fails: the string [hello] is not
    JSON and is sent as raw text, the caller gave no headers, and the call
    carries [Content-Type: application/json]. *)
Lemma raw_text_body_gets_json_content_type :
  json_loads (PyRuntime := ascii_runtime NaN) "hello" = None /\
  headers raw_text_request = None /\
  (fun c => (call_json c, call_data c, call_headers c !! "Content-Type")) <$>
    calls_of (execute_custom_api (rt:=ascii_runtime NaN) ok_server raw_text_request) =
    [(PNone, Some "hello", Some "application/json")].
Proof. repeat split. Qed.

(** An instance of the amended C4: the same request. *)
Lemma raw_text_body_call :
  exists c,
    calls_of (execute_custom_api (rt:=ascii_runtime NaN) ok_server raw_text_request) = [c] /\
    call_method c = "POST" /\
    (call_json c, call_data c) = (PNone, Some "hello") /\
    call_headers c !! "Content-Type" = Some "application/json".
Proof.
  apply (string_body_is_decoded_or_sent_raw (rt:=ascii_runtime NaN) ok_server
           raw_text_request "hello").
  - apply (bool_decide_unpack _). by vm_compute.
  - apply (bool_decide_unpack _). by vm_compute.
  - reflexivity.
Defined.

(** C1 on [execute_custom_api]: for the DELETE request with the query
    parameter [id=7] and no body, the parameter is sent as the JSON body
    and no query string is sent. *)
Lemma delete_params_sent_as_json_body :
  body delete_request = PNone /\
  (fun c => (call_method c, call_params c, call_json c)) <$>
    calls_of (execute_custom_api (rt:=ascii_runtime NaN) ok_server delete_request) =
    [("DELETE", None, PDict [("id", PStr "7")])].
Proof. split; reflexivity. Qed.

(** The same request through [execute_api_request]: the parameter stays
    in the query string and there is no JSON body. *)
Lemma delete_params_api_request :
  (fun c => (call_method c, call_params c, call_json c)) <$>
    calls_of (execute_api_request (rt:=ascii_runtime NaN) (E:=Empty_set)
                ok_server delete_request_data) =
    [("DELETE", Some {["id" := "7"]}, PNone)].
Proof. reflexivity. Qed.

(** ** The executor: unknown methods *)

Section FallbackClaims.
Context {rt : PyRuntime}.
Variable transport : Call -> pyexc + Response.

(** A method that is none of the five is sent as a GET by both executors,
    with the query parameters and the headers. *)
Lemma unknown_method_sends_get
    (req : CustomApiExecuteRequest) (request_data : RequestData) :
  str_upper (str_or (method req) "GET") ∉ ["GET"; "POST"; "PUT"; "PATCH"; "DELETE"] ->
  str_upper (default "GET" (rq_method request_data)) ∉ ["GET"; "POST"; "PUT"; "PATCH"; "DELETE"] ->
  url_accepted (base_url req) = true ->
  calls_of (execute_custom_api transport req) =
    [ mkCall "GET" (base_url req) (params_or_None (merge_params req)) PNone None
        (with_user_agent (dict_or_empty (headers req))) 30 true ] /\
  calls_of (execute_api_request (E:=Empty_set) transport request_data) =
    [ mkCall "GET" (rq_base_url request_data)
        (Some (default ∅ (rq_query_params request_data))) PNone None
        (with_user_agent (default ∅ (rq_headers request_data))) 30 true ].
Proof.
  intros Hreq Hdata Hscheme.
  rewrite !not_elem_of_cons in Hreq, Hdata.
  destruct Hreq as (Hget & Hpost & Hput & Hpatch & Hdelete & _).
  destruct Hdata as (Hget' & Hrest'). split.
  - rewrite (execute_custom_api_calls transport req Hscheme).
    unfold outgoing_call, request_headers.
    apply String.eqb_neq in Hget. rewrite Hget.
    rewrite (bool_decide_eq_false_2 (_ ∈ ["POST"; "PUT"; "PATCH"; "DELETE"])),
            (bool_decide_eq_false_2 (_ ∈ ["POST"; "PUT"; "PATCH"])); [done | | ];
      rewrite !elem_of_cons, elem_of_nil; tauto.
  - unfold calls_of, run. rewrite execute_api_request_run.
    unfold api_outgoing_call.
    apply String.eqb_neq in Hget'. rewrite Hget'.
    rewrite bool_decide_eq_false_2; [done|].
    rewrite !elem_of_cons, elem_of_nil. tauto.
Qed.

(** [execute_api_request] then returns the result of that GET. *)
Lemma unknown_method_api_request_returns (request_data : RequestData) (r : Response) :
  transport (api_outgoing_call request_data) = inr r ->
  exists result,
    result_of (execute_api_request (E:=Empty_set) transport request_data) = Returns result /\
    res_error result = None /\ res_status result = resp_status_code r.
Proof.
  intros Hr. eexists. unfold result_of, run.
  rewrite execute_api_request_run, Hr. by simpl.
Qed.

(** [execute_custom_api] does not: on the GET branch and on the fallback
    branch the local variable [json_body] is never assigned, reading it
    after the response has arrived raises, and the last [except] clause
    turns that into [HTTPException(500)]. *)
Lemma unassigned_json_body_raises (req : CustomApiExecuteRequest) (r : Response) :
  let method := str_upper (str_or (method req) "GET") in
  url_accepted (base_url req) = true ->
  method ∉ ["POST"; "PUT"; "PATCH"; "DELETE"] ->
  transport (outgoing_call method req (merge_params req) (request_headers method req)) = inr r ->
  result_of (execute_custom_api transport req) =
    Raises (mkHTTPException 500
      "Internal error: cannot access local variable 'json_body' where it is not associated with a value").
Proof.
  intros method Hscheme Hmethod Hr.
  rewrite (execute_custom_api_result transport req Hscheme). fold method.
  rewrite Hr. unfold json_body_after.
  rewrite (bool_decide_eq_false_2 _ Hmethod).
  by destruct (String.eqb method "GET").
Qed.

End FallbackClaims.

(** C9 on [execute_custom_api]: the method [OPTIONS] is sent as a GET with
    the query parameters, the server answers 200, and the executor raises
    [HTTPException(500)] instead of returning the response. *)
Lemma unknown_method_custom_api_raises :
  (fun c => (call_method c, call_url c, call_params c, call_json c)) <$>
    calls_of (execute_custom_api (rt:=ascii_runtime NaN) ok_server options_request) =
    [("GET", "https://example.test/items", Some {["id" := "7"]}, PNone)] /\
  result_of (execute_custom_api (rt:=ascii_runtime NaN) ok_server options_request) =
    Raises (mkHTTPException 500
      "Internal error: cannot access local variable 'json_body' where it is not associated with a value").
Proof. split; reflexivity. Qed.

(** The same request through [execute_api_request]: the GET is sent and
    its result is returned. *)
Lemma unknown_method_api_request :
  (fun c => (call_method c, call_url c, call_params c, call_json c)) <$>
    calls_of (execute_api_request (rt:=ascii_runtime NaN) (E:=Empty_set)
                ok_server options_request_data) =
    [("GET", "https://example.test/items", Some {["id" := "7"]}, PNone)] /\
  result_of (execute_api_request (rt:=ascii_runtime NaN) (E:=Empty_set)
               ok_server options_request_data) =
    Returns {| res_success := true; res_status := 200;
               res_url := Some "https://example.test/items";
               res_method := Some "OPTIONS"; res_data := Some (PDict []);
               res_text := None; res_error := None |}.
Proof. split; reflexivity. Qed.

(** ** The intent router: method detection *)

Lemma find_first {A} (p : A -> bool) (l : list A) (i : nat) (x : A) :
  l !! i = Some x ->
  p x = true ->
  (forall j y, (j < i)%nat -> l !! j = Some y -> p y = false) ->
  List.find p l = Some x.
Proof.
  revert i. induction l as [|a l IH]; intros i Hi Hx Hearlier; [done|].
  destruct i as [|i]; simpl in *.
  - injection Hi as ->. by rewrite Hx.
  - rewrite (Hearlier 0%nat a); [|lia|done].
    apply (IH i); [done..|].
    intros j y Hj Hy. apply (Hearlier (S j)); [lia|done].
Qed.

Section RouterClaims.
Context {rt : PyRuntime}.

Lemma any_keyword_spec (keywords : list string) (user_msg : string) :
  any_keyword keywords user_msg = true <->
  exists keyword, keyword ∈ keywords /\ str_in keyword (str_lower user_msg) = true.
Proof.
  unfold any_keyword. rewrite existsb_exists.
  split; intros (keyword & Hin & Hsub); exists keyword; by rewrite list_elem_of_In in *.
Qed.

(** The loop stops with a method exactly when some keyword of some
    category occurs in the lower-cased message. *)
Lemma detect_method_is_Some (items : list (string * list string)) (user_msg : string) :
  is_Some (detect_method items user_msg) <->
  exists method keywords keyword,
    (method, keywords) ∈ items /\ keyword ∈ keywords /\
    str_in keyword (str_lower user_msg) = true.
Proof.
  induction items as [|[method keywords] items IH]; simpl.
  - split; [by intros [? ?] | intros (? & ? & ? & []%elem_of_nil & _)].
  - destruct (any_keyword keywords user_msg) eqn:Hany.
    + split; [intros _ | by eexists].
      apply any_keyword_spec in Hany as (keyword & Hin & Hsub).
      exists method, keywords, keyword. by rewrite elem_of_cons; auto.
    + rewrite IH. split.
      * intros (m & kws & kw & Hin & Hkw & Hsub).
        exists m, kws, kw. rewrite elem_of_cons. auto.
      * intros (m & kws & kw & Hin & Hkw & Hsub).
        apply elem_of_cons in Hin as [Heq | Hin]; [|by exists m, kws, kw].
        injection Heq as -> ->.
        assert (any_keyword keywords user_msg = true) as Hyes
          by (apply any_keyword_spec; eauto).
        congruence.
Qed.

(** C7. The method an utterance is given is the first category, in the
    order PUT, POST, PATCH, DELETE, GET, that has a keyword occurring in
    the lower-cased utterance: the loop of [node_api_exec] computes
    [first_matching_category]; a category that matches wins over every
    category after it as soon as no category before it matches; and an
    utterance containing both [modify] and [create] yields PUT. *)
Theorem first_category_in_priority_order_wins (user_msg : string) :
  detected_method user_msg = first_matching_category user_msg /\
  (forall (i : nat) (category : string),
     priority_order !! i = Some category ->
     category_matches user_msg category = true ->
     (forall (j : nat) (earlier : string),
        (j < i)%nat -> priority_order !! j = Some earlier ->
        category_matches user_msg earlier = false) ->
     detected_method user_msg = Some category) /\
  (str_in "modify" (str_lower user_msg) = true ->
   str_in "create" (str_lower user_msg) = true ->
   detected_method user_msg = Some "PUT").
Proof.
  assert (detected_method user_msg = first_matching_category user_msg) as Hloop
    by reflexivity.
  split; [exact Hloop|]. split.
  - intros i category Hi Hmatch Hearlier. rewrite Hloop.
    by apply (find_first _ _ i).
  - intros Hmodify _. unfold detected_method, api_keywords. cbn [detect_method].
    assert (any_keyword ["put"; "update"; "modify"; "change"; "edit"] user_msg = true) as ->.
    { apply any_keyword_spec. exists "modify". split; [|done].
      rewrite !elem_of_cons. auto. }
    reflexivity.
Qed.

(** C10. Detection tests substring containment in the lower-cased
    utterance, not whole words: a method is detected exactly when the
    lower-cased utterance can be cut as [pre ++ keyword ++ post] for
    some keyword of the lexicon; and there is an utterance none of whose
    words is a keyword for which PUT is detected, because [computer]
    contains [put]. *)
Theorem keyword_detection_is_substring_containment :
  (forall user_msg : string,
     is_Some (detected_method user_msg) <->
     exists method keywords keyword pre post,
       (method, keywords) ∈ api_keywords /\ keyword ∈ keywords /\
       str_lower user_msg = pre +:+ keyword +:+ post) /\
  (exists user_msg : string,
     (forall method keywords keyword,
        (method, keywords) ∈ api_keywords -> keyword ∈ keywords ->
        keyword ∉ String.words (str_lower user_msg)) /\
     detected_method user_msg = Some "PUT").
Proof.
  split.
  - intros user_msg. unfold detected_method. rewrite detect_method_is_Some.
    split.
    + intros (m & kws & kw & Hin & Hkw & (pre & post & Hcut)%str_in_spec).
      by exists m, kws, kw, pre, post.
    + intros (m & kws & kw & pre & post & Hin & Hkw & Hcut).
      exists m, kws, kw. rewrite str_in_spec. eauto.
  - exists "my computer is slow". split; [|reflexivity].
    assert (Forall (fun entry : string * list string =>
              Forall (fun keyword => keyword ∉ ["my"; "computer"; "is"; "slow"]) entry.2)
              api_keywords) as Hwords.
    { apply (bool_decide_unpack _). by vm_compute. }
    intros method keywords keyword Hin Hkw.
    rewrite Forall_forall in Hwords. specialize (Hwords _ Hin).
    rewrite Forall_forall in Hwords. exact (Hwords _ Hkw).
Qed.

End RouterClaims.

(** An instance of C7: PUT and POST both match, PUT is taken. *)
Lemma modify_and_create_is_put :
  detected_method (rt:=ascii_runtime NaN)
    "Please modify the entry and create a backup" = Some "PUT".
Proof.
  apply (first_category_in_priority_order_wins (rt:=ascii_runtime NaN)
           "Please modify the entry and create a backup"); reflexivity.
Defined.

(** ** The chat node: the placeholder body *)

Section NodeClaims.
Context {rt : PyRuntime}.
Variable transport : Call -> pyexc + Response.

(** When a method and a URL are found, the node makes the one call of
    [execute_api_request] on the request it has built. *)
Lemma node_api_exec_calls (state : list Message) (api_url M : string) (urls : list string) :
  let user_msg := last_user_msg state EmptyString in
  detected_method user_msg = Some M ->
  M ≠ EmptyString ->
  re_findall url_pattern user_msg = api_url :: urls ->
  calls_of (node_api_exec (E:=Empty_set) transport state) =
    [api_outgoing_call (build_request_data api_url M user_msg)].
Proof.
  intros user_msg Hmethod Htruthy Hurls.
  unfold calls_of, run, node_api_exec. fold user_msg.
  rewrite Hmethod, Hurls. unfold str_truthy.
  apply String.eqb_neq in Htruthy. rewrite Htruthy. simpl.
  unfold try_except at 1. unfold mbind, Py_bind at 1.
  rewrite execute_api_request_run.
  by destruct (res_success _).
Qed.

(** C8. When the node assembles a PUT request from an utterance (a
    method and a URL were detected) and no body was extracted from it (no
    JSON object was found, it did not parse, or it was empty), the request
    handed to the executor, and so the call that is sent, carries the
    placeholder body [{"updated": True, "timestamp": time.time()}]; for
    POST the flag is [created] and for PATCH it is [patched]. *)
Theorem placeholder_body_attached
    (state : list Message) (api_url M flag : string) (urls : list string) :
  let user_msg := last_user_msg state EmptyString in
  (M, flag) ∈ [("PUT", "updated"); ("POST", "created"); ("PATCH", "patched")] ->
  detected_method user_msg = Some M ->
  re_findall url_pattern user_msg = api_url :: urls ->
  truthy (extract_body user_msg) = false ->
  rq_body (build_request_data api_url M user_msg) =
    PDict [(flag, PBool true); ("timestamp", PFloat time_time)] /\
  calls_of (node_api_exec (E:=Empty_set) transport state) =
    [ {| call_method := M;
         call_url := api_url;
         call_params := Some ∅;
         call_json := PDict [(flag, PBool true); ("timestamp", PFloat time_time)];
         call_data := None;
         call_headers :=
           <["User-Agent" := "Multi-Agent-Chatbot/1.0"]>
             {["Content-Type" := "application/json"]};
         call_timeout := 30;
         call_allow_redirects := true |} ].
Proof.
  intros user_msg Hin Hmethod Hurls Hbody.
  assert (M ≠ EmptyString) as Htruthy.
  { rewrite !elem_of_cons, elem_of_nil in Hin.
    by destruct Hin as [[= -> _] | [[= -> _] | [[= -> _] | []]]]. }
  rewrite (node_api_exec_calls state api_url M urls Hmethod Htruthy Hurls).
  fold user_msg. unfold build_request_data, api_outgoing_call.
  rewrite !elem_of_cons, elem_of_nil in Hin.
  destruct Hin as [[= -> ->] | [[= -> ->] | [[= -> ->] | []]]];
    simpl; rewrite Hbody; by simpl.
Qed.

End NodeClaims.

(** An instance of C8: an update request without a JSON object. *)
Lemma update_without_body_gets_placeholder :
  rq_body (build_request_data (rt:=ascii_runtime noon) "https://example.test/posts/1" "PUT"
             "please update https://example.test/posts/1") =
    PDict [("updated", PBool true); ("timestamp", PFloat noon)] /\
  (fun c => (call_method c, call_url c, call_json c)) <$>
    calls_of (node_api_exec (rt:=ascii_runtime noon) (E:=Empty_set) ok_server
                update_conversation) =
    [("PUT", "https://example.test/posts/1",
      PDict [("updated", PBool true); ("timestamp", PFloat noon)])].
Proof.
  destruct (placeholder_body_attached (rt:=ascii_runtime noon) ok_server
              update_conversation "https://example.test/posts/1" "PUT" "updated" [])
    as [Hbody Hcalls].
  - apply (bool_decide_unpack _). by vm_compute.
  - reflexivity.
  - reflexivity.
  - reflexivity.
  - split; [exact Hbody | by rewrite Hcalls].
Defined.

(** * Further properties of the executors *)

Section ExecutorExtras.
Context {rt : PyRuntime}.
Variable transport : Call -> pyexc + Response.

Lemma execute_api_request_result {E} (request_data : RequestData) :
  run (execute_api_request (E:=E) transport request_data) =
    (Returns (api_result transport request_data), [api_outgoing_call request_data]).
Proof.
  unfold run, api_result. rewrite execute_api_request_run.
  by destruct (transport _).
Qed.

Lemma outgoing_call_headers method req params hdrs :
  call_headers (outgoing_call method req params hdrs) = hdrs.
Proof.
  unfold outgoing_call.
  destruct (String.eqb method "GET"); [done|]. by destruct (bool_decide _).
Qed.

(** The calls of [execute_custom_api], for any URL. *)
Lemma execute_custom_api_calls_cases (req : CustomApiExecuteRequest) :
  let method := str_upper (str_or (method req) "GET") in
  calls_of (execute_custom_api transport req) =
    if url_accepted (base_url req)
    then [outgoing_call method req (merge_params req) (request_headers method req)]
    else [].
Proof.
  intros method. destruct (url_accepted (base_url req)) eqn:Hscheme.
  - by apply execute_custom_api_calls.
  - unfold calls_of. by rewrite execute_custom_api_rejects.
Qed.

(** X1. One attempt per invocation: [execute_custom_api] makes exactly
    one call when it accepts the URL and none when it does not,
    [execute_api_request] makes exactly one call, whatever the network
    answers; a failed call is never repeated. *)
Theorem one_attempt_per_invocation
    (req : CustomApiExecuteRequest) (request_data : RequestData) :
  length (calls_of (execute_custom_api transport req)) =
    (if url_accepted (base_url req)
     then 1 else 0)%nat /\
  length (calls_of (execute_api_request (E:=Empty_set) transport request_data)) = 1%nat.
Proof.
  split.
  - rewrite execute_custom_api_calls_cases. by destruct (url_accepted _).
  - unfold calls_of. by rewrite execute_api_request_result.
Qed.

(** X2. The merged query parameters: a key of [query_params] keeps its
    value, also when it is [param_key]; the pair [param_key],
    [param_value] is added only when both are non-empty and the key is
    not in [query_params]; no other key appears. *)
Theorem merge_params_lookup (req : CustomApiExecuteRequest) (k : string) :
  merge_params req !! k =
    match dict_or_empty (query_params req) !! k with
    | Some v => Some v
    | None =>
        match param_key req, param_value req with
        | Some pk, Some pv =>
            if bool_decide (k = pk) && str_truthy pk && str_truthy pv
            then Some pv else None
        | _, _ => None
        end
    end.
Proof.
  unfold merge_params.
  destruct (param_key req) as [pk|], (param_value req) as [pv|];
    try by destruct (_ !! k).
  destruct (str_truthy pk), (str_truthy pv); simpl;
    rewrite ?andb_false_r; try by destruct (_ !! k).
  rewrite andb_true_r.
  case_bool_decide as Hfree; simpl.
  - case_bool_decide as Hk.
    + subst k. by rewrite lookup_insert_eq, Hfree.
    + rewrite lookup_insert_ne by done. by destruct (_ !! k).
  - case_bool_decide as Hk; simpl.
    + subst k. by destruct (dict_or_empty (query_params req) !! pk).
    + by destruct (dict_or_empty (query_params req) !! k).
Qed.

(** X3. Every call carries a [User-Agent]: the caller's when the caller
    gave one, [Multi-Agent-Chatbot/1.0] otherwise. [execute_api_request]
    changes no other header, [execute_custom_api] no other header than
    [Content-Type]. *)
Theorem user_agent_always_sent
    (req : CustomApiExecuteRequest) (request_data : RequestData) :
  Forall (fun c =>
      call_headers c !! "User-Agent" =
        Some (default "Multi-Agent-Chatbot/1.0"
                (dict_or_empty (headers req) !! "User-Agent")) /\
      forall k, k ≠ "User-Agent" -> k ≠ "Content-Type" ->
        call_headers c !! k = dict_or_empty (headers req) !! k)
    (calls_of (execute_custom_api transport req)) /\
  Forall (fun c =>
      call_headers c !! "User-Agent" =
        Some (default "Multi-Agent-Chatbot/1.0"
                (default ∅ (rq_headers request_data) !! "User-Agent")) /\
      forall k, k ≠ "User-Agent" ->
        call_headers c !! k = default ∅ (rq_headers request_data) !! k)
    (calls_of (execute_api_request (E:=Empty_set) transport request_data)).
Proof.
  assert (forall h : gmap string string,
    with_user_agent h !! "User-Agent" =
      Some (default "Multi-Agent-Chatbot/1.0" (h !! "User-Agent")) /\
    forall k, k ≠ "User-Agent" -> with_user_agent h !! k = h !! k) as Hua.
  { intros h. unfold with_user_agent. case_bool_decide as Hnone.
    - rewrite lookup_insert_eq, Hnone. split; [done|].
      intros k Hk. by rewrite lookup_insert_ne.
    - split; [|done]. by destruct (h !! "User-Agent"). }
  split.
  - rewrite execute_custom_api_calls_cases.
    destruct (url_accepted (base_url req)); [|constructor].
    apply Forall_singleton. rewrite outgoing_call_headers. unfold request_headers.
    assert (forall h : gmap string string,
      with_user_agent h !! "User-Agent" =
        Some (default "Multi-Agent-Chatbot/1.0" (h !! "User-Agent")) /\
      forall k, k ≠ "User-Agent" -> k ≠ "Content-Type" ->
        with_user_agent h !! k = h !! k) as Hua'.
    { intros h. destruct (Hua h) as [Hagent Hother]. split; [done|]. auto. }
    destruct (bool_decide _ && truthy _); [|apply Hua'].
    case_bool_decide; [|apply Hua'].
    destruct (Hua (<["Content-Type" := "application/json"]> (dict_or_empty (headers req))))
      as [Hagent Hother].
    split.
    + by rewrite Hagent, lookup_insert_ne.
    + intros k Hk Hct. by rewrite Hother, lookup_insert_ne.
  - unfold calls_of. rewrite execute_api_request_result. apply Forall_singleton.
    unfold api_outgoing_call.
    destruct (String.eqb _ "GET"); [apply Hua|].
    destruct (bool_decide _); apply Hua.
Qed.

(** X4. The content type of a call of [execute_custom_api]: the caller's
    [Content-Type] is never replaced; [application/json] is added only
    for a POST, PUT or PATCH with a truthy body and no [Content-Type] of
    the caller; a GET, a DELETE and a request without a body get none. *)
Theorem content_type_policy (req : CustomApiExecuteRequest) :
  let method := str_upper (str_or (method req) "GET") in
  let given := dict_or_empty (headers req) !! "Content-Type" in
  Forall (fun c =>
      call_headers c !! "Content-Type" =
        if bool_decide (method ∈ ["POST"; "PUT"; "PATCH"]) && truthy (body req)
        then Some (default "application/json" given)
        else given)
    (calls_of (execute_custom_api transport req)).
Proof.
  intros method given.
  rewrite execute_custom_api_calls_cases.
    destruct (url_accepted (base_url req)); [|constructor].
  apply Forall_singleton. rewrite outgoing_call_headers.
  fold method. unfold request_headers.
  rewrite with_user_agent_content_type.
  destruct (bool_decide _ && truthy _); [|done].
  case_bool_decide as Hgiven.
  - rewrite lookup_insert_eq. unfold given. by rewrite Hgiven.
  - unfold given. by destruct (_ !! "Content-Type").
Qed.

(** X5. No call carries both a JSON body and raw data, and
    [execute_api_request] never sends raw data. *)
Theorem never_json_and_data_together
    (req : CustomApiExecuteRequest) (request_data : RequestData) :
  Forall (fun c => call_json c = PNone \/ call_data c = None)
    (calls_of (execute_custom_api transport req)) /\
  Forall (fun c => call_data c = None)
    (calls_of (execute_api_request (E:=Empty_set) transport request_data)).
Proof.
  split.
  - rewrite execute_custom_api_calls_cases.
    destruct (url_accepted (base_url req)); [|constructor].
    apply Forall_singleton. unfold outgoing_call.
    destruct (String.eqb _ "GET"); [by left|].
    destruct (bool_decide _); [|by left]. simpl.
    unfold body_arguments.
    destruct (body req); simpl; auto; destruct (json_loads _); simpl; auto.
  - unfold calls_of. rewrite execute_api_request_result. apply Forall_singleton.
    unfold api_outgoing_call.
    destruct (String.eqb _ "GET"); [done|]. by destruct (bool_decide _).
Qed.

End ExecutorExtras.

Section ExecutorExtras2.
Context {rt : PyRuntime}.
Variable transport : Call -> pyexc + Response.

Lemma outgoing_call_write_method method req params hdrs :
  method ∈ ["POST"; "PUT"; "PATCH"; "DELETE"] ->
  outgoing_call method req params hdrs =
    let jb := body_arguments params (body req) in
    mkCall method (base_url req)
      (if String.eqb method "DELETE" && negb (truthy jb.1) then Some params else None)
      jb.1 jb.2 hdrs 30 true.
Proof.
  intros Hin. unfold outgoing_call. rewrite (bool_decide_eq_true_2 _ Hin).
  rewrite !elem_of_cons, elem_of_nil in Hin.
  by destruct Hin as [-> | [-> | [-> | [-> | []]]]].
Qed.

(** X6. A body that is a dictionary or a list is sent unchanged as the
    JSON body of a POST, PUT, PATCH or DELETE, with no raw data: it is
    not converted to text and decoded again. *)
Theorem structured_body_sent_unchanged (req : CustomApiExecuteRequest) :
  url_accepted (base_url req) = true ->
  str_upper (str_or (method req) "GET") ∈ ["POST"; "PUT"; "PATCH"; "DELETE"] ->
  match body req with PDict _ | PList _ => True | _ => False end ->
  exists c,
    calls_of (execute_custom_api transport req) = [c] /\
    call_method c = str_upper (str_or (method req) "GET") /\
    call_json c = body req /\ call_data c = None.
Proof.
  intros Hscheme Hmethod Hbody. eexists.
  split; [apply (execute_custom_api_calls transport req Hscheme)|].
  rewrite (outgoing_call_write_method _ _ _ _ Hmethod). simpl.
  unfold body_arguments. by destruct (body req).
Qed.

(** X7. For a POST, PUT or PATCH, [execute_custom_api] never sends a
    query string, whatever the body; and when the request has a body, the
    query parameters ([query_params], [param_key], [param_value]) do not
    reach the call at all: any other query fields give the same call. *)
Theorem write_methods_ignore_query_fields
    (req : CustomApiExecuteRequest)
    (query : option (gmap string string)) (key value : option string) :
  str_upper (str_or (method req) "GET") ∈ ["POST"; "PUT"; "PATCH"] ->
  Forall (fun c => call_params c = None) (calls_of (execute_custom_api transport req)) /\
  (body req ≠ PNone ->
   calls_of (execute_custom_api transport (with_query req query key value)) =
     calls_of (execute_custom_api transport req)).
Proof.
  intros Hmethod.
  assert (str_upper (str_or (method req) "GET") ∈ ["POST"; "PUT"; "PATCH"; "DELETE"])
    as Hwrite by (rewrite !elem_of_cons in *; tauto).
  assert (String.eqb (str_upper (str_or (method req) "GET")) "DELETE" = false) as Hdelete.
  { rewrite !elem_of_cons, elem_of_nil in Hmethod.
    by destruct Hmethod as [-> | [-> | [-> | []]]]. }
  rewrite !execute_custom_api_calls_cases. simpl.
  destruct (url_accepted (base_url req)); [|by split].
  rewrite !outgoing_call_write_method by done. simpl.
  rewrite Hdelete. simpl. split; [by apply Forall_singleton|].
  intros Hbody.
  assert (forall params params',
            body_arguments params (body req) = body_arguments params' (body req)) as Hargs.
  { intros params params'. unfold body_arguments. by destruct (body req). }
  by rewrite (Hargs (merge_params (with_query req query key value)) (merge_params req)).
Qed.

(** X8. When the HTTP call raises, [execute_custom_api] raises an
    [HTTPException] and nothing else: with status 408 exactly for the
    time-out classes (a connect time-out, which is also a connection
    error, counts as a time-out), with status 500 exactly for the
    exceptions that do not come from the HTTP library, and with status 502
    otherwise; the text of the exception is passed on except for
    time-outs and connection errors. *)
Theorem transport_exception_status (req : CustomApiExecuteRequest) (e : pyexc) :
  url_accepted (base_url req) = true ->
  (forall c, transport c = inl e) ->
  let h := http_exception_of e in
  result_of (execute_custom_api transport req) = Raises h /\
  status_code h ∈ [408; 502; 500] /\
  (status_code h = 408 <-> isinstance_Timeout (exc_class_of e) = true) /\
  (status_code h = 500 <-> isinstance_RequestException (exc_class_of e) = false) /\
  (isinstance_Timeout (exc_class_of e) = false ->
   isinstance_ConnectionError (exc_class_of e) = false ->
   exists prefix, detail h = prefix +:+ exc_str e).
Proof.
  intros Hscheme Hdown h. split.
  - by rewrite (execute_custom_api_result transport req Hscheme), Hdown.
  - unfold h, http_exception_of. destruct e as [cls msg]. simpl.
    destruct cls; simpl; (split; [rewrite !elem_of_cons; auto|]);
      (split; [done|]); (split; [done|]); intros; try done; by eexists.
Qed.

(** X9. The result of [execute_api_request]: [error] is present exactly
    when the call raised, and then the result is [success = False],
    [status = 0] with no payload, URL or method; when the call completed,
    whatever its status, [error] is absent, the URL and the method are
    given, and exactly one of [data] and [text] is present: [data] when
    the payload decodes as JSON, the raw [text] when it does not. *)
Theorem api_result_invariant (request_data : RequestData) :
  exists result,
    result_of (execute_api_request (E:=Empty_set) transport request_data) = Returns result /\
    (is_Some (res_error result) <->
       exists e, transport (api_outgoing_call request_data) = inl e) /\
    (is_Some (res_error result) ->
       res_success result = false /\ res_status result = 0 /\
       res_data result = None /\ res_text result = None /\
       res_url result = None /\ res_method result = None) /\
    (res_error result = None ->
       (is_Some (res_data result) <-> res_text result = None) /\
       is_Some (res_url result) /\ is_Some (res_method result) /\
       exists r, transport (api_outgoing_call request_data) = inr r /\
         res_status result = resp_status_code r /\
         res_data result = resp_json r /\
         (resp_json r = None -> res_text result = Some (resp_text r))).
Proof.
  eexists. split.
  { unfold result_of. by rewrite execute_api_request_result. }
  unfold api_result. destruct (transport _) as [e|r]; simpl.
  - split; [split; eauto|]. split; [done|]. done.
  - split; [split; [by intros [? ?] | by intros [? ?]]|].
    split; [by intros [? ?]|]. intros _.
    split; [|split; [by eexists | split; [by eexists | ]]].
    + destruct (resp_json r); split; try done; by intros [? ?].
    + exists r. repeat split. by intros ->.
Qed.

(** X10. A result returned by [execute_custom_api]: it exists only for
    an accepted URL and one of the methods POST, PUT, PATCH and DELETE (a
    GET never gets its response back); exactly one of [data] and [text]
    is present, and [content_type] says which. *)
Theorem custom_result_invariant
    (req : CustomApiExecuteRequest) (response_data : ResponseData) :
  result_of (execute_custom_api transport req) = Returns response_data ->
  url_accepted (base_url req) = true /\
  rd_method response_data = str_upper (str_or (method req) "GET") /\
  rd_method response_data ∈ ["POST"; "PUT"; "PATCH"; "DELETE"] /\
  (is_Some (rd_data response_data) <-> rd_text response_data = None) /\
  (rd_content_type response_data = "json" <-> is_Some (rd_data response_data)) /\
  (rd_content_type response_data = "text" <-> is_Some (rd_text response_data)).
Proof.
  intros Hresult.
  destruct (url_accepted (base_url req)) eqn:Hscheme.
  2:{ unfold result_of in Hresult.
      by rewrite (execute_custom_api_rejects transport req Hscheme) in Hresult. }
  split; [done|].
  rewrite (execute_custom_api_result transport req Hscheme) in Hresult.
  destruct (transport _) as [e|r]; [done|].
  unfold json_body_after in Hresult.
  destruct (String.eqb _ "GET"); [done|].
  case_bool_decide as Hmethod; [|done].
  injection Hresult as <-. simpl. split; [done|]. split; [done|].
  destruct (resp_json r); repeat split; try done; by intros [? ?].
Qed.

End ExecutorExtras2.

(** * Further properties of the chat node *)

Lemma char_case_ascii (c : ascii) :
  char_isascii c = true ->
  char_isascii (char_upper c) = true /\ char_lower (char_upper c) = char_lower c.
Proof. destruct c as [[] [] [] [] [] [] [] []]; intros Hc; by vm_compute. Qed.

Lemma str_map_upper_ascii (s : string) :
  str_isascii s = true ->
  str_isascii (str_map char_upper s) = true /\
  str_map char_lower (str_map char_upper s) = str_map char_lower s.
Proof.
  induction s as [|c s IH]; simpl; [done|].
  intros [Hc Hs]%andb_true_iff.
  destruct (char_case_ascii c Hc) as [-> ->], (IH Hs) as [-> ->]. done.
Qed.

Section NodeExtras.
Context {rt : PyRuntime}.
Variable transport : Call -> pyexc + Response.

(** The loop reads the utterance only through its lower-cased form. *)
Lemma detect_method_lower (items : list (string * list string)) (a b : string) :
  str_lower a = str_lower b -> detect_method items a = detect_method items b.
Proof.
  intros Hab. induction items as [|[method keywords] items IH]; simpl; [done|].
  unfold any_keyword. by rewrite Hab, IH.
Qed.

(** The detected method is one of the five names, in upper case. *)
Lemma detected_method_in_priority_order (user_msg M : string) :
  detected_method user_msg = Some M -> M ∈ priority_order.
Proof.
  unfold detected_method, api_keywords, priority_order. cbn [detect_method].
  repeat (destruct (any_keyword _ user_msg);
          [intros [= <-]; rewrite !elem_of_cons; auto 10|]).
  done.
Qed.

Lemma node_api_exec_run {E} (state : list Message) (api_url M : string) (urls : list string) :
  let user_msg := last_user_msg state EmptyString in
  let request_data := build_request_data api_url M user_msg in
  detected_method user_msg = Some M ->
  re_findall url_pattern user_msg = api_url :: urls ->
  run (node_api_exec (E:=E) transport state) =
    (Returns (if res_success (api_result transport request_data)
              then CallSuccessful M api_url (api_result transport request_data)
              else CallFailed M api_url (api_result transport request_data)),
     [api_outgoing_call request_data]).
Proof.
  intros user_msg request_data Hmethod Hurls.
  assert (str_truthy M = true) as Htruthy.
  { apply detected_method_in_priority_order in Hmethod.
    unfold priority_order in Hmethod. rewrite !elem_of_cons, elem_of_nil in Hmethod.
    by destruct Hmethod as [-> | [-> | [-> | [-> | [-> | []]]]]]. }
  unfold run, node_api_exec. fold user_msg.
  rewrite Hmethod, Hurls, Htruthy.
  unfold try_except at 1. unfold mbind, Py_bind at 1.
  fold request_data.
  pose proof (execute_api_request_result (E:=pyexc) transport request_data) as Hrun.
  unfold run in Hrun. rewrite Hrun.
  by destruct (res_success _).
Qed.



(** X13. A direct GET or DELETE never carries a body, also when the
    utterance contains a JSON object: the call has [json] and [data]
    unset, an empty query string, and the headers [Content-Type:
    application/json] and [User-Agent]. *)
Theorem node_get_delete_carry_no_body
    (state : list Message) (api_url M : string) (urls : list string) :
  let user_msg := last_user_msg state EmptyString in
  M ∈ ["GET"; "DELETE"] ->
  detected_method user_msg = Some M ->
  re_findall url_pattern user_msg = api_url :: urls ->
  calls_of (node_api_exec (E:=Empty_set) transport state) =
    [ {| call_method := M;
         call_url := api_url;
         call_params := Some ∅;
         call_json := PNone;
         call_data := None;
         call_headers :=
           <["User-Agent" := "Multi-Agent-Chatbot/1.0"]>
             {["Content-Type" := "application/json"]};
         call_timeout := 30;
         call_allow_redirects := true |} ].
Proof.
  intros user_msg Hin Hmethod Hurls. unfold calls_of.
  rewrite (node_api_exec_run state api_url M urls Hmethod Hurls).
  rewrite !elem_of_cons, elem_of_nil in Hin.
  by destruct Hin as [-> | [-> | []]].
Qed.

(** X14. When a PUT, POST or PATCH utterance contains a JSON object
    that decodes to a truthy value, that value is the JSON body of the
    call, and no placeholder is used. *)
Theorem node_extracted_body_is_sent
    (state : list Message) (api_url M : string) (urls : list string) :
  let user_msg := last_user_msg state EmptyString in
  M ∈ ["PUT"; "POST"; "PATCH"] ->
  detected_method user_msg = Some M ->
  re_findall url_pattern user_msg = api_url :: urls ->
  truthy (extract_body user_msg) = true ->
  (fun c => (call_method c, call_url c, call_json c, call_data c)) <$>
    calls_of (node_api_exec (E:=Empty_set) transport state) =
    [(M, api_url, extract_body user_msg, None)].
Proof.
  intros user_msg Hin Hmethod Hurls Hbody. unfold calls_of.
  rewrite (node_api_exec_run state api_url M urls Hmethod Hurls).
  fold user_msg. unfold build_request_data, api_outgoing_call.
  rewrite !elem_of_cons, elem_of_nil in Hin.
  destruct Hin as [-> | [-> | [-> | []]]]; simpl; by rewrite Hbody.
Qed.

(** X15. When the network fails during a direct call, the node reports
    a failed call with status 0 and the text of the exception; it does not
    raise and does not try again. *)
Theorem node_network_failure_is_call_failed
    (state : list Message) (api_url M : string) (urls : list string) (e : pyexc) :
  let user_msg := last_user_msg state EmptyString in
  detected_method user_msg = Some M ->
  re_findall url_pattern user_msg = api_url :: urls ->
  (forall c, transport c = inl e) ->
  result_of (node_api_exec (E:=Empty_set) transport state) =
    Returns (CallFailed M api_url
      {| res_success := false; res_status := 0; res_url := None;
         res_method := None; res_data := None; res_text := None;
         res_error := Some (exc_str e) |}) /\
  length (calls_of (node_api_exec (E:=Empty_set) transport state)) = 1%nat.
Proof.
  intros user_msg Hmethod Hurls Hdown. unfold result_of, calls_of.
  rewrite (node_api_exec_run state api_url M urls Hmethod Hurls).
  unfold api_result. by rewrite Hdown.
Qed.

(** A message that is not a human message, or has no content, does not
    change the utterance. *)
Lemma last_user_msg_skips (messages : list Message) (user_msg : string) :
  Forall (fun m => msg_content m = None \/ message_type m ∉ ["human"; "user"]) messages ->
  last_user_msg messages user_msg = user_msg.
Proof.
  induction 1 as [|m messages Hm _ IH]; simpl; [done|].
  destruct Hm as [-> | Hm]; [done|].
  destruct (msg_content m); [|done]. by rewrite (bool_decide_eq_false_2 _ Hm).
Qed.

(** X16. The utterance the node works on is the content of the last
    message of type [human] or [user] that has a content: later messages
    of other types, or without content, do not replace it, and earlier
    messages do not matter. *)
Theorem last_user_msg_is_last_human_message
    (earlier later : list Message) (m : Message) (content user_msg : string) :
  msg_content m = Some content ->
  message_type m ∈ ["human"; "user"] ->
  Forall (fun m' => msg_content m' = None \/ message_type m' ∉ ["human"; "user"]) later ->
  last_user_msg (earlier ++ m :: later) user_msg = content.
Proof.
  intros Hcontent Htype Hlater. revert user_msg.
  induction earlier as [|m0 earlier IH]; intros user_msg; simpl.
  - rewrite Hcontent, (bool_decide_eq_true_2 _ Htype).
    by apply last_user_msg_skips.
  - destruct (msg_content m0); [destruct (bool_decide _)|]; apply IH.
Qed.

(** X17. On ASCII text detection does not depend on letter case: the
    upper-cased utterance is given the same method. *)
Theorem detection_is_case_insensitive (user_msg : string) :
  str_isascii user_msg = true ->
  detected_method (str_upper user_msg) = detected_method user_msg.
Proof.
  intros Hascii. unfold detected_method. apply detect_method_lower.
  destruct (str_map_upper_ascii user_msg Hascii) as [Hup Hlow].
  unfold str_upper, str_lower. by rewrite Hascii, Hup, Hlow.
Qed.

(** X18. Every method the detector can produce has a tip. When the node
    passes the detected method to [handle_regular_tools_enhanced], the
    reply is one assistant message: the text of the model followed by an
    empty line and the tip of that method when the model answers, and the
    fixed apology naming the method when the model raises. *)
Theorem regular_tools_reply_names_the_method
    (Tool : Type) (tool_name : Tool -> string)
    (llm_invoke : list Tool -> list (string * string) -> pyexc + LLMResponse)
    (tools : list Tool) (user_msg M : string) :
  detected_method user_msg = Some M ->
  exists tip,
    method_tips !! M = Some tip /\
    handle_regular_tools_enhanced Tool tool_name llm_invoke tools user_msg (Some M) =
      match llm_invoke tools
              [("system", system_prompt Tool tool_name tools (Some M)); ("user", user_msg)] with
      | inr response =>
          [("assistant", response_content response +:+ newline +:+ newline +:+ tip)]
      | inl _ =>
          [("assistant",
            "I understand you want to work with APIs using the " +:+ M +:+
            " method. I can help you test APIs, but I encountered an issue. Please try rephrasing your request or check if the API endpoint is accessible.")]
      end.
Proof.
  intros Hmethod. apply detected_method_in_priority_order in Hmethod.
  unfold priority_order in Hmethod. rewrite !elem_of_cons, elem_of_nil in Hmethod.
  unfold handle_regular_tools_enhanced.
  destruct Hmethod as [-> | [-> | [-> | [-> | [-> | []]]]]];
    (eexists; split; [reflexivity|]); by destruct (llm_invoke _ _).
Qed.

End NodeExtras.

(** * Instances of the further properties *)

(** X6 on the POST of the examples, whose body is a dictionary. *)
Lemma structured_body_post :
  exists c,
    calls_of (execute_custom_api (rt:=ascii_runtime NaN) ok_server post_request) = [c] /\
    call_method c = "POST" /\
    call_json c = PDict [("title", PStr "x")] /\ call_data c = None.
Proof.
  apply (structured_body_sent_unchanged (rt:=ascii_runtime NaN) ok_server post_request).
  - apply (bool_decide_unpack _). by vm_compute.
  - apply (bool_decide_unpack _). by vm_compute.
  - exact I.
Defined.

(** X7: the same POST with a query string and a single parameter. *)
Lemma post_query_fields_are_dropped :
  Forall (fun c => call_params c = None)
    (calls_of (execute_custom_api (rt:=ascii_runtime NaN) ok_server post_request)) /\
  calls_of (execute_custom_api (rt:=ascii_runtime NaN) ok_server post_with_query) =
    calls_of (execute_custom_api (rt:=ascii_runtime NaN) ok_server post_request).
Proof.
  destruct (write_methods_ignore_query_fields (rt:=ascii_runtime NaN) ok_server
              post_request (Some {["page" := "2"]}) (Some "q") (Some "x"))
    as [Hquery Hsame].
  - apply (bool_decide_unpack _). by vm_compute.
  - split; [exact Hquery | apply Hsame; discriminate].
Defined.

(** X8: too many redirects, an exception of the HTTP library. *)
Lemma redirect_loop_is_502 :
  result_of (execute_custom_api (rt:=ascii_runtime NaN)
               (broken_network too_many_redirects) post_request) =
    Raises (mkHTTPException 502 "API request failed: Exceeded 30 redirects.").
Proof.
  apply (transport_exception_status (rt:=ascii_runtime NaN)
           (broken_network too_many_redirects) post_request too_many_redirects).
  - apply (bool_decide_unpack _). by vm_compute.
  - reflexivity.
Defined.

(** X10: the result of the POST of the examples. *)
Lemma post_result_is_json :
  exists response_data,
    result_of (execute_custom_api (rt:=ascii_runtime NaN) ok_server post_request) =
      Returns response_data /\
    rd_method response_data = "POST" /\
    rd_content_type response_data = "json" /\
    rd_text response_data = None.
Proof.
  eexists. split; [reflexivity|].
  destruct (custom_result_invariant (rt:=ascii_runtime NaN) ok_server post_request _ eq_refl)
    as (_ & Hmethod & _ & Hdata & Hjson & _).
  split; [exact Hmethod|]. split.
  - apply Hjson. by eexists.
  - apply Hdata. by eexists.
Defined.

(** X13: a fetch, with braces in the utterance. *)
Lemma fetch_carries_no_body :
  (fun c => (call_method c, call_url c, call_json c, call_data c)) <$>
    calls_of (node_api_exec (rt:=ascii_runtime NaN) (E:=Empty_set) ok_server
                fetch_conversation) =
    [("GET", "https://example.test/items", PNone, None)].
Proof.
  rewrite (node_get_delete_carry_no_body (rt:=ascii_runtime NaN) ok_server
             fetch_conversation "https://example.test/items" "GET" []).
  - reflexivity.
  - apply (bool_decide_unpack _). by vm_compute.
  - reflexivity.
  - reflexivity.
Defined.

(** X14: an update that carries the object [{"likes": 12}]. *)
Lemma update_with_body_sends_it :
  (fun c => (call_method c, call_url c, call_json c, call_data c)) <$>
    calls_of (node_api_exec (rt:=object_runtime NaN) (E:=Empty_set) ok_server
                update_with_body_conversation) =
    [("PUT", "https://example.test/posts/1", PDict [("likes", PInt 12)], None)].
Proof.
  apply (node_extracted_body_is_sent (rt:=object_runtime NaN) ok_server
           update_with_body_conversation "https://example.test/posts/1" "PUT" []).
  - apply (bool_decide_unpack _). by vm_compute.
  - reflexivity.
  - reflexivity.
  - reflexivity.
Defined.

(** X15: the update of the examples on a network that times out. *)
Lemma update_on_broken_network :
  result_of (node_api_exec (rt:=ascii_runtime NaN) (E:=Empty_set)
               (broken_network read_timeout) update_conversation) =
    Returns (CallFailed "PUT" "https://example.test/posts/1"
      {| res_success := false; res_status := 0; res_url := None;
         res_method := None; res_data := None; res_text := None;
         res_error := Some "Read timed out." |}) /\
  length (calls_of (node_api_exec (rt:=ascii_runtime NaN) (E:=Empty_set)
                      (broken_network read_timeout) update_conversation)) = 1%nat.
Proof.
  apply (node_network_failure_is_call_failed (rt:=ascii_runtime NaN)
           (broken_network read_timeout) update_conversation
           "https://example.test/posts/1" "PUT" [] read_timeout); reflexivity.
Defined.

(** X16: the assistant's answer and a human message without content
    come after the update. *)
Lemma answered_conversation_keeps_the_update :
  last_user_msg answered_conversation EmptyString =
    "please update https://example.test/posts/1".
Proof.
  apply (last_user_msg_is_last_human_message
           [ mkMessage (Some "Hello") (Some "human") None;
             mkMessage (Some "How can I help?") (Some "ai") None ]
           [ mkMessage (Some "Done.") (Some "ai") None;
             mkMessage None (Some "human") None ]
           (mkMessage (Some "please update https://example.test/posts/1") (Some "human") None)).
  - reflexivity.
  - apply (bool_decide_unpack _). by vm_compute.
  - apply (bool_decide_unpack _). by vm_compute.
Defined.

(** X17: an utterance in mixed case. *)
Lemma shouting_is_detected_alike :
  detected_method (rt:=ascii_runtime NaN) "PLEASE REMOVE HTTPS://EXAMPLE.TEST/ITEMS/7" =
  detected_method (rt:=ascii_runtime NaN) "Please remove https://example.test/items/7".
Proof.
  apply (detection_is_case_insensitive (rt:=ascii_runtime NaN)
           "Please remove https://example.test/items/7").
  reflexivity.
Defined.

(** X18: a model that answers, for an utterance detected as DELETE. *)
Lemma delete_reply_has_tip :
  exists tip,
    method_tips !! "DELETE" = Some tip /\
    handle_regular_tools_enhanced (rt:=ascii_runtime NaN) string id
      (fixed_model (inr (WithContent "Which item?"))) ["search_web"]
      "remove the item" (Some "DELETE") =
    [("assistant", "Which item?" +:+ newline +:+ newline +:+ tip)].
Proof.
  apply (regular_tools_reply_names_the_method (rt:=ascii_runtime NaN) string id
           (fixed_model (inr (WithContent "Which item?"))) ["search_web"]
           "remove the item" "DELETE").
  reflexivity.
Defined.

(** * The result and the call *)

Section EchoExtras.
Context {rt : PyRuntime}.
Variable transport : Call -> pyexc + Response.

(** X19. A result returned by [execute_custom_api] describes the call
    that was made and the response to it: [request_headers] are the
    headers sent, [request_body] is the JSON body sent when that is
    truthy and absent otherwise, and [status], [url] and [headers] are
    those of the response the network gave to that call. *)
Theorem result_echoes_the_call
    (req : CustomApiExecuteRequest) (response_data : ResponseData) :
  result_of (execute_custom_api transport req) = Returns response_data ->
  exists c r,
    calls_of (execute_custom_api transport req) = [c] /\
    transport c = inr r /\
    rd_request_headers response_data = call_headers c /\
    rd_request_body response_data =
      (if truthy (call_json c) then Some (call_json c) else None) /\
    rd_status response_data = resp_status_code r /\
    rd_url response_data = resp_url r /\
    rd_headers response_data = resp_headers r.
Proof.
  intros Hresult.
  destruct (url_accepted (base_url req)) eqn:Hscheme.
  2:{ unfold result_of in Hresult.
      by rewrite (execute_custom_api_rejects transport req Hscheme) in Hresult. }
  rewrite (execute_custom_api_result transport req Hscheme) in Hresult.
  rewrite (execute_custom_api_calls transport req Hscheme).
  destruct (transport _) as [e|r] eqn:Hr; [done|].
  exists (outgoing_call (str_upper (str_or (method req) "GET")) req (merge_params req)
            (request_headers (str_upper (str_or (method req) "GET")) req)), r.
  split; [done|]. split; [done|].
  rewrite outgoing_call_headers.
  unfold json_body_after, outgoing_call in *.
  destruct (String.eqb _ "GET"); [done|].
  destruct (bool_decide _); [|done].
  by injection Hresult as <-.
Qed.

(** X20. A direct call of the node goes to the first URL of the
    utterance with the detected method as HTTP method, for each of the
    five methods: the fallback of [execute_api_request] for unknown
    methods is never taken. The query string is empty, there is no raw
    data, and the headers are the same for every utterance. *)
Theorem node_call_uses_detected_method
    (state : list Message) (api_url M : string) (urls : list string) :
  let user_msg := last_user_msg state EmptyString in
  detected_method user_msg = Some M ->
  re_findall url_pattern user_msg = api_url :: urls ->
  exists c,
    calls_of (node_api_exec (E:=Empty_set) transport state) = [c] /\
    call_method c = M /\ call_url c = api_url /\
    call_params c = Some ∅ /\ call_data c = None /\
    call_headers c =
      <["User-Agent" := "Multi-Agent-Chatbot/1.0"]>
        {["Content-Type" := "application/json"]}.
Proof.
  intros user_msg Hmethod Hurls. unfold calls_of.
  rewrite (node_api_exec_run transport state api_url M urls Hmethod Hurls).
  eexists. split; [done|].
  apply detected_method_in_priority_order in Hmethod.
  unfold priority_order in Hmethod. rewrite !elem_of_cons, elem_of_nil in Hmethod.
  by destruct Hmethod as [-> | [-> | [-> | [-> | [-> | []]]]]].
Qed.

End EchoExtras.

(** X19 on the POST of the examples. *)
Lemma post_result_echo :
  exists response_data c,
    result_of (execute_custom_api (rt:=ascii_runtime NaN) ok_server post_request) =
      Returns response_data /\
    calls_of (execute_custom_api (rt:=ascii_runtime NaN) ok_server post_request) = [c] /\
    rd_request_headers response_data = call_headers c /\
    rd_request_body response_data = Some (PDict [("title", PStr "x")]) /\
    rd_status response_data = 200.
Proof.
  eexists.
  destruct (result_echoes_the_call (rt:=ascii_runtime NaN) ok_server post_request _ eq_refl)
    as (c & r & Hcalls & Hr & Hheaders & Hbody & Hstatus & _).
  exists c. split; [reflexivity|]. split; [exact Hcalls|].
  split; [exact Hheaders|]. split; reflexivity.
Defined.

(** X20 on the fetch of the examples. *)
Lemma fetch_call_is_get :
  exists c,
    calls_of (node_api_exec (rt:=ascii_runtime NaN) (E:=Empty_set) ok_server
                fetch_conversation) = [c] /\
    call_method c = "GET" /\ call_url c = "https://example.test/items" /\
    call_params c = Some ∅ /\ call_data c = None /\
    call_headers c =
      <["User-Agent" := "Multi-Agent-Chatbot/1.0"]>
        {["Content-Type" := "application/json"]}.
Proof.
  apply (node_call_uses_detected_method (rt:=ascii_runtime NaN) ok_server
           fetch_conversation "https://example.test/items" "GET" []); reflexivity.
Defined.
